(** * joueuses_dashboard.py: the data pipeline of the players dashboard

    The script reads one spreadsheet, validates its columns, and renders a
    fixed sequence of report sections.  This development embeds the script
    shallowly: data frames are lists of rows, the data-frame calls the
    script makes are functions on them, and the page the script draws is a
    list of elements threaded through a state-and-exception monad. *)

From Stdlib Require Import QArith Qcanon.
From stdpp Require Import base list strings numbers sorting gmap.

Local Open Scope string_scope.
Local Open Scope list_scope.
Local Open Scope nat_scope.

(** ** Cells

    A spreadsheet cell is empty (NaN, NaT), a number, a text or a
    timestamp.  Numbers are only compared, never computed with, so exact
    rationals stand for them. *)

Inductive cell :=
| CNull
| CNum (x : Qc)
| CStr (s : string)
| CDate (t : Z).

Global Instance cell_eq_dec : EqDecision cell.
Proof. solve_decision. Defined.

Global Instance cell_inhabited : Inhabited cell := populate CNull.

Global Instance cell_countable : Countable cell.
Proof.
  refine (inj_countable'
    (λ c, match c with
          | CNull => inl ()
          | CNum x => inr (inl x)
          | CStr s => inr (inr (inl s))
          | CDate t => inr (inr (inr t))
          end)
    (λ v, match v with
          | inl _ => CNull
          | inr (inl x) => CNum x
          | inr (inr (inl s)) => CStr s
          | inr (inr (inr t)) => CDate t
          end) _).
  by intros [].
Defined.

(** The rank of a cell's type in the order of a sorted key column.  The
    library puts the values that are not texts before the texts, and the
    empty cells last ([na_position='last']).  A number and a timestamp
    cannot be compared with each other: a key column that holds both is
    not sorted at all (see [pd.sort_values]), so the rank between these
    two is never used. *)
Definition kind (c : cell) : nat :=
  match c with
  | CNum _ => 0
  | CDate _ => 1
  | CStr _ => 2
  | CNull => 3
  end.

Definition isna (c : cell) : bool :=
  match c with CNull => true | _ => false end.

(** The order in which a column is sorted: numbers by value, timestamps by
    time, texts by code point. *)
Definition cell_le (a b : cell) : Prop :=
  match a, b with
  | CNum x, CNum y => Qcle x y
  | CStr s, CStr t => String.le s t
  | CDate s, CDate t => (s ≤ t)%Z
  | _, _ => kind a ≤ kind b
  end.

Definition cell_lt (a b : cell) : Prop := cell_le a b ∧ a ≠ b.

Global Instance cell_le_dec : RelDecision cell_le.
Proof. intros [] []; simpl; apply _. Defined.

Global Instance cell_lt_dec : RelDecision cell_lt.
Proof. intros a b; unfold cell_lt; apply _. Defined.

(** Elementwise [==] of the data-frame library: an empty cell equals
    nothing, not even another empty cell. *)
Definition cell_eqb (a b : cell) : bool :=
  negb (isna a) && bool_decide (a = b).

(** Truth value of a cell in a condition: zero and the empty text are
    false, everything else (NaN included) is true. *)
Definition truthy (c : cell) : bool :=
  match c with
  | CNum x => negb (bool_decide (x = Q2Qc 0))
  | CStr s => negb (bool_decide (s = ""))
  | _ => true
  end.

(** ** Rows and frames *)

Abbreviation row := (gmap string cell).

Definition loc (r : row) (c : string) : cell := default CNull (r !! c).

Record DataFrame := {
  columns : list string;
  rows : list row
}.

Definition column (df : DataFrame) (c : string) : list cell :=
  (λ r, loc r c) <$> rows df.

(** A table of counts: the row labels in order, the column labels, and for
    each row label the count under each column label.  The order in which
    the library lists the columns of an unstacked table has changed with
    its versions; the table is kept without it. *)
Record crosstab := {
  ct_index : list cell;
  ct_columns : gset cell;
  ct_values : list (gmap cell nat)
}.

(** A correlation matrix is kept symbolic: the frame, of numbers and empty
    cells, whose Pearson correlation is meant.  Its entries are
    floating-point numbers computed by the library and are not part of
    this model. *)
Inductive correlation := Pearson (frame : DataFrame).

(** ** Exceptions *)

Inductive exn :=
| FileNotFoundError (path : string)
| KeyError (key : string)
| TypeError (msg : string)
| ValueError (msg : string)
| OtherError (msg : string).

(** [str(e)] *)
Definition exn_str (e : exn) : string :=
  match e with
  | FileNotFoundError p => "[Errno 2] No such file or directory: '" +:+ p +:+ "'"
  | KeyError k => "'" +:+ k +:+ "'"
  | TypeError m => m
  | ValueError m => m
  | OtherError m => m
  end.

(** The result of running a piece of the script: a value, an exception, or
    the script-control signal of [st.stop()], which is not an [Exception]
    and so passes through [except Exception]. *)
Inductive outcome (A : Type) :=
| Ret (a : A)
| Raise (e : exn)
| Stop.
Arguments Ret {A} a.
Arguments Raise {A} e.
Arguments Stop {A}.

Global Instance outcome_ret : MRet outcome := λ A a, Ret a.
Global Instance outcome_bind : MBind outcome := λ A B f m,
  match m with
  | Ret a => f a
  | Raise e => Raise e
  | Stop => Stop
  end.

(** ** Figures and page elements *)

(** A formatted text: literal pieces and interpolated cells. *)
Inductive part := Lit (s : string) | Val (c : cell).

Inductive chart :=
| StackedBars (table : crosstab)
| Heatmap (matrix : correlation)
| Lines (data : DataFrame) (x y hue : string).

Record figure := {
  fig_chart : chart;
  fig_title : list part
}.

(** What is put on the page.  [Pyplot (Some j) fig] is a figure drawn in
    column [j] of the row opened by the last [Columns].  [ExceptionBox e]
    is the box in which the runner of the script shows an exception that
    the script did not catch (see [st.run]). *)
Inductive element :=
| Title (s : string)
| Markdown (s : string)
| Header (s : string)
| Subheader (s : string)
| SidebarHeader (s : string)
| SidebarCheckbox (label : string)
| Error (msg : string)
| Dataframe (df : DataFrame)
| Container
| Expander (label : string)
| Columns (n : nat)
| Selectbox (slot : option nat) (label : string) (options : list cell)
| Pyplot (slot : option nat) (fig : figure)
| ExceptionBox (e : exn).

(** ** The world of one run

    The files on disk, the paths opened so far, the widget values chosen by
    the viewer, and the page drawn so far. *)

Inductive file :=
| Workbook (sheet : DataFrame)
| Unreadable (msg : string).

Record widget_state := {
  checkbox_value : string → bool;
  selectbox_choice : string → nat
}.

Record state := {
  files : gmap string file;
  opened : list string;
  widgets : widget_state;
  page : list element
}.

Definition M (A : Type) : Type := state → outcome A * state.

Global Instance M_ret : MRet M := λ A a s, (Ret a, s).
Global Instance M_bind : MBind M := λ A B f m s,
  match m s with
  | (Ret a, s') => f a s'
  | (Raise e, s') => (Raise e, s')
  | (Stop, s') => (Stop, s')
  end.

Definition lift {A} (o : outcome A) : M A := λ s, (o, s).

(** [try: body except Exception as e: handler(e)].  [Stop] is not an
    exception and is not handled. *)
Definition try_except {A} (body : M A) (handler : exn → M A) : M A := λ s,
  match body s with
  | (Raise e, s') => handler e s'
  | r => r
  end.

Fixpoint for_ {A} (l : list A) (body : A → M unit) : M unit :=
  match l with
  | [] => mret ()
  | x :: l' => body x;; for_ l' body
  end.

(** A loop that appends to a list of figures. *)
Fixpoint collect {A} (l : list A) (body : A → outcome (list figure))
  : outcome (list figure) :=
  match l with
  | [] => Ret []
  | x :: l' => figs ← body x; rest ← collect l' body; Ret (figs ++ rest)
  end.

Definition emit (e : element) : M unit := λ s,
  (Ret (), {| files := files s; opened := opened s; widgets := widgets s;
              page := page s ++ [e] |}).

Definition get_widgets : M widget_state := λ s, (Ret (widgets s), s).

(** ** The data-frame calls of the script *)

Module pd.

(** [pd.read_excel(path)] *)
Definition read_excel (path : string) : M DataFrame := λ s,
  let s' := {| files := files s; opened := opened s ++ [path];
               widgets := widgets s; page := page s |} in
  match files s !! path with
  | None => (Raise (FileNotFoundError path), s')
  | Some (Unreadable msg) => (Raise (OtherError msg), s')
  | Some (Workbook sheet) => (Ret sheet, s')
  end.

(** [df[c] = f(df[c])], elementwise *)
Definition assign (df : DataFrame) (c : string) (f : cell → cell) : DataFrame :=
  {| columns := columns df;
     rows := (λ r, <[c := f (loc r c)]> r) <$> rows df |}.

(** [pd.to_datetime(col, errors='coerce')]: [coerce col c] is the
    timestamp the library reads in cell [c] of column [col], if any;
    what does not parse becomes NaT. *)
Definition to_datetime (coerce : list cell → cell → option Z)
    (col : list cell) (c : cell) : cell :=
  match coerce col c with
  | Some t => CDate t
  | None => CNull
  end.

(** [df.dropna(subset=...)] *)
Definition dropna (df : DataFrame) (subset : list string) : DataFrame :=
  {| columns := columns df;
     rows := filter (λ r, Forall (λ c, loc r c ≠ CNull) subset) (rows df) |}.

(** Lexicographic order of two rows on the key columns [by]. *)
Fixpoint lex_le (by_ : list string) (r1 r2 : row) : Prop :=
  match by_ with
  | [] => True
  | c :: by' =>
      cell_lt (loc r1 c) (loc r2 c) ∨
      (loc r1 c = loc r2 c ∧ lex_le by' r1 r2)
  end.

Global Instance lex_le_dec by_ : RelDecision (lex_le by_).
Proof. induction by_; intros r1 r2; simpl; apply _. Defined.

(** The cells of a list that are not empty all have one type. *)
Definition homogeneous (l : list cell) : Prop :=
  Forall (λ a, Forall (λ b, a = CNull ∨ b = CNull ∨ kind a = kind b) l) l.

Global Instance homogeneous_dec l : Decision (homogeneous l).
Proof. unfold homogeneous; apply _. Defined.

(** The values of a key column can be put in order unless a number and a
    timestamp are among them: numbers and texts mix (numbers first), and
    so do timestamps and texts. *)
Definition orderable (l : list cell) : Prop :=
  ¬ (Exists (λ c, kind c = 0) l ∧ Exists (λ c, kind c = 1) l).

Global Instance orderable_dec l : Decision (orderable l).
Proof. unfold orderable; apply _. Defined.

(** A stable sort: [x] goes before the first element that it does not
    come after, so elements that compare equal keep their order. *)
Fixpoint insert_by {A} (R : relation A) `{!RelDecision R} (x : A) (l : list A)
  : list A :=
  match l with
  | [] => [x]
  | y :: l' => if decide (R x y) then x :: l else y :: insert_by R x l'
  end.

Definition stable_sort {A} (R : relation A) `{!RelDecision R} (l : list A)
  : list A :=
  foldr (insert_by R) [] l.

(** [df.sort_values(by=...)].  A missing key column is a [KeyError].  With
    one key the values of the column are compared with each other, which
    fails when they are of two types.  With several keys the values of
    each key are ranked first, which only fails for a column that cannot
    be put in order, and the rows are sorted by rank, rows of equal keys
    staying in their order.  (With one key the library's default sort need
    not keep rows of equal keys in their order; nothing below depends on
    the order among such rows.) *)
Definition sort_values (df : DataFrame) (by_ : list string) : outcome DataFrame :=
  match list_find (λ c, c ∉ columns df) by_ with
  | Some (_, c) => Raise (KeyError c)
  | None =>
      let sorted := {| columns := columns df;
                       rows := stable_sort (lex_le by_) (rows df) |} in
      match by_ with
      | [c] =>
          if decide (homogeneous (column df c)) then Ret sorted
          else Raise (TypeError "'<' not supported between instances of 'str' and 'int'")
      | _ =>
          if decide (Forall (λ c, orderable (column df c)) by_) then Ret sorted
          else Raise (TypeError "'values' is not ordered, please explicitly specify the categories order by passing in a categories argument.")
      end
  end.

(** [df.reset_index(drop=True)]: rows are identified by position, so
    renumbering them changes nothing. *)
Definition reset_index (df : DataFrame) : DataFrame := df.

(** A frame operation that names columns fails on the first one the frame
    does not have. *)
Definition require (df : DataFrame) (cols : list string) : outcome unit :=
  match list_find (λ c, c ∉ columns df) cols with
  | Some (_, c) => Raise (KeyError c)
  | None => Ret ()
  end.

(** [df[c]] *)
Definition getitem (df : DataFrame) (c : string) : outcome (list cell) :=
  require df [c];; Ret (column df c).

(** [df[cols]] for a list of column names *)
Definition select (df : DataFrame) (cols : list string) : outcome DataFrame :=
  require df cols;;
  Ret {| columns := cols;
         rows := (λ r : row, filter (λ kv, kv.1 ∈ cols) r) <$> rows df |}.

(** [series.unique()]: the distinct values in order of first appearance;
    all empty cells count as one value. *)
Fixpoint unique {A} `{EqDecision A} (l : list A) : list A :=
  match l with
  | [] => []
  | x :: l' => x :: filter (λ y, y ≠ x) (unique l')
  end.

(** [df[df[c] == v]] *)
Definition mask_eq (df : DataFrame) (c : string) (v : cell) : outcome DataFrame :=
  require df [c];;
  Ret {| columns := columns df;
         rows := filter (λ r, cell_eqb (loc r c) v = true) (rows df) |}.

(** [len(df)] *)
Definition len (df : DataFrame) : nat := length (rows df).

(** Order of the keys of a two-column grouping. *)
Definition pair_le (k1 k2 : cell * cell) : Prop :=
  cell_lt k1.1 k2.1 ∨ (k1.1 = k2.1 ∧ cell_le k1.2 k2.2).

Global Instance pair_le_dec : RelDecision pair_le.
Proof. intros k1 k2; unfold pair_le; apply _. Defined.

Definition key2 (c1 c2 : string) (r : row) : cell * cell := (loc r c1, loc r c2).

(** Rows that take part in a grouping on [c1], [c2]: those with no empty
    key ([dropna=True]). *)
Definition keyed (c1 c2 : string) (l : list row) : list row :=
  filter (λ r, loc r c1 ≠ CNull ∧ loc r c2 ≠ CNull) l.

(** Iterating [df.groupby([c1, c2])]: one group for each key that occurs,
    in key order ([sort=True]), holding the rows with that key.  The values
    of each key column are ranked as for a sort on several keys. *)
Definition groupby2 (df : DataFrame) (c1 c2 : string)
  : outcome (list ((cell * cell) * DataFrame)) :=
  require df [c1; c2];;
  let live := keyed c1 c2 (rows df) in
  if decide (orderable (column df c1) ∧ orderable (column df c2)) then
    Ret ((λ k, (k, {| columns := columns df;
                      rows := filter (λ r, key2 c1 c2 r = k) live |}))
           <$> stable_sort pair_le (unique (key2 c1 c2 <$> live)))
  else Raise (TypeError "'<' not supported between instances of 'datetime.datetime' and 'int'").

(** [df.groupby(c1)[c2].value_counts()]: for every pair of a [c1] value
    and a [c2] value that occur together, the number of rows that have
    both; rows with an empty [c1] or [c2] are left out ([dropna=True]).
    The series is a finite map from its keys to the counts.  The entries
    are put in the order of their [c1] values, which are compared with
    each other for it: [c1] values of two types are a [TypeError]. *)
Definition groupby_value_counts (df : DataFrame) (c1 c2 : string)
  : outcome (gmap (cell * cell) nat) :=
  require df [c1; c2];;
  let live := keyed c1 c2 (rows df) in
  if decide (homogeneous ((λ r, loc r c1) <$> live)) then
    Ret (list_to_map
           ((λ k, (k, length (filter (λ r, key2 c1 c2 r = k) live)))
              <$> unique (key2 c1 c2 <$> live)))
  else Raise (TypeError "'<' not supported between instances of 'str' and 'int'").

(** [series.unstack(fill_value=...)]: the first key level labels the
    rows, in order; the second key level becomes the columns; a
    combination the series has no entry for gets [fill_value]. *)
Definition unstack (s : gmap (cell * cell) nat) (fill_value : nat) : crosstab :=
  let index := stable_sort cell_le (elements (set_map (D:=gset cell) fst (dom s))) in
  let cols : gset cell := set_map snd (dom s) in
  {| ct_index := index;
     ct_columns := cols;
     ct_values :=
       (λ j, set_to_map (λ p, (p, default fill_value (s !! (j, p)))) cols)
         <$> index |}.

(** The conversion of a cell to a floating-point number.  A text is taken
    not to spell a number, and a timestamp to sit in a column of mixed
    types: neither is converted. *)
Definition to_float (c : cell) : outcome unit :=
  match c with
  | CNull | CNum _ => Ret ()
  | CStr t => Raise (ValueError ("could not convert string to float: '" +:+ t +:+ "'"))
  | CDate _ =>
      Raise (TypeError "float() argument must be a string or a real number, not 'Timestamp'")
  end.

Fixpoint to_floats (l : list cell) : outcome unit :=
  match l with
  | [] => Ret ()
  | c :: l' => to_float c;; to_floats l'
  end.

(** [frame.corr()]: every column of the frame is converted to
    floating-point numbers, column by column; see [correlation]. *)
Definition corr (df : DataFrame) : outcome correlation :=
  to_floats (concat (column df <$> columns df));;
  Ret (Pearson df).

End pd.

(** ** Builtins *)

Module py.

(** [sorted(l)] compares with [<], which is not defined between values of
    two types, nor between a text and NaN.  Among numbers NaN compares
    false with everything, and the builtin returns an ascending list that
    ends in NaN unchanged; the script only sorts such lists (the distinct
    values of a column already sorted with NaN last), on which the sort
    below returns the same list. *)
Definition comparable (l : list cell) : Prop :=
  pd.homogeneous l ∧ ¬ (CNull ∈ l ∧ Exists (λ c, kind c = 2) l).

Global Instance comparable_dec l : Decision (comparable l).
Proof. unfold comparable; apply _. Defined.

Definition sorted (l : list cell) : outcome (list cell) :=
  if decide (comparable l) then Ret (pd.stable_sort cell_le l)
  else Raise (TypeError "'<' not supported between instances of 'float' and 'str'").

(** [range(start, stop, step)] for a step that is not negative, unfolded
    by iteration. *)
Fixpoint range_from (fuel start stop step : nat) : list nat :=
  match fuel with
  | 0 => []
  | S fuel' =>
      if decide (start < stop) then start :: range_from fuel' (start + step) stop step
      else []
  end.

Definition range (start stop step : nat) : outcome (list nat) :=
  if decide (step = 0) then Raise (ValueError "range() arg 3 must not be zero")
  else Ret (range_from (stop - start) start stop step).

(** [l[i:j]] *)
Definition slice {A} (l : list A) (i j : nat) : list A := take (j - i) (drop i l).

(** [enumerate(l)] *)
Definition enumerate {A} (l : list A) : list (nat * A) := imap pair l.

(** [l[i]] *)
Definition index {A} (l : list A) (i : nat) : outcome A :=
  match l !! i with
  | Some x => Ret x
  | None => Raise (OtherError "list index out of range")
  end.

End py.

(** ** Plotting *)

Module plt.

(** [table.plot(kind='bar', stacked=True)] with its title; a table without
    columns has nothing to plot. *)
Definition plot_bar (table : crosstab) (title : string) : outcome figure :=
  if decide (ct_columns table = ∅) then Raise (TypeError "no numeric data to plot")
  else Ret {| fig_chart := StackedBars table; fig_title := [Lit title] |}.

(** [sns.heatmap(matrix)] with its title *)
Definition heatmap (matrix : correlation) (title : list part) : figure :=
  {| fig_chart := Heatmap matrix; fig_title := title |}.

(** [sns.lineplot(data, x, y, hue)] with its title.  The values of [y] are
    averaged at each [x], which fails on a text. *)
Definition lineplot (data : DataFrame) (x y hue : string) (title : list part)
  : outcome figure :=
  if decide (Exists (λ c, kind c = 2) (column data y)) then
    Raise (ValueError "could not convert string to float")
  else Ret {| fig_chart := Lines data x y hue; fig_title := title |}.

End plt.

(** ** Page calls *)

Module st.

Definition title (s : string) : M unit := emit (Title s).
Definition markdown (s : string) : M unit := emit (Markdown s).
Definition header (s : string) : M unit := emit (Header s).
Definition subheader (s : string) : M unit := emit (Subheader s).
Definition error (msg : string) : M unit := emit (Error msg).
Definition dataframe (df : DataFrame) : M unit := emit (Dataframe df).
Definition container : M unit := emit Container.
Definition expander (label : string) : M unit := emit (Expander label).
Definition pyplot (slot : option nat) (fig : figure) : M unit := emit (Pyplot slot fig).
Definition sidebar_header (s : string) : M unit := emit (SidebarHeader s).

(** [st.stop()] *)
Definition stop {A} : M A := λ s, (Stop, s).

(** [st.sidebar.checkbox(label, False)] *)
Definition sidebar_checkbox (label : string) : M bool :=
  emit (SidebarCheckbox label);;
  w ← get_widgets;
  mret (checkbox_value w label).

(** [st.selectbox(label, options)]: the option the viewer chose, the first
    one when the choice is out of date, [None] when there is no option. *)
Definition selectbox (slot : option nat) (label : string) (options : list cell)
  : M (option cell) :=
  emit (Selectbox slot label options);;
  w ← get_widgets;
  mret (match options !! selectbox_choice w label with
        | Some v => Some v
        | None => head options
        end).

(** [st.columns(n)]: opens a row and returns its column slots. *)
Definition columns (n : nat) : M (list nat) :=
  emit (Columns n);; mret (seq 0 n).

(** [streamlit run]: the runner executes the script from top to bottom;
    an exception that leaves the script ends the run and is shown in a box
    at the end of the page.  [st.stop()] ends the run and shows nothing. *)
Definition run (script : M unit) : M unit := λ s,
  match script s with
  | (Raise e, s') => (Raise e, (emit (ExceptionBox e) s').2)
  | r => r
  end.

End st.

(** * The script *)

(** Utility that lays figures out in rows of [cols_per_row] columns.  Every
    call in the script passes [cols_per_row]. *)
Definition display_figures_in_columns (figures : list figure) (cols_per_row : nat)
  : M unit :=
  starts ← lift (py.range 0 (length figures) cols_per_row);
  for_ starts (λ i,
    cols ← st.columns cols_per_row;
    for_ (py.enumerate (py.slice figures i (i + cols_per_row))) (λ jfig,
      slot ← lift (py.index cols jfig.1);
      st.pyplot (Some slot) jfig.2)).

Definition xlsx : string := "Jeu_Donnees_Cycle_Performance.xlsx".

Definition required_columns : list string :=
  ["Joueuse"; "Phase_Cycle"; "Fer_mg"; "Hydratation_L";
   "Sprints"; "Distance_km"; "Precision_Passes";
   "Humeur"; "Crampes"; "Fatigue"].

(** The loop over [required_columns] of [load_data]. *)
Fixpoint check_columns (cols : list string) (df : DataFrame) : M unit :=
  match cols with
  | [] => mret ()
  | col :: cols' =>
      (if decide (col ∈ columns df) then mret ()
       else st.error ("La colonne '" +:+ col +:+ "' est manquante.");; st.stop);;
      check_columns cols' df
  end.

Definition variables_nutrition : list string := ["Fer_mg"; "Hydratation_L"].
Definition variables_performance : list string :=
  ["Sprints"; "Distance_km"; "Precision_Passes"].
Definition variables_symptomes : list string := ["Humeur"; "Crampes"; "Fatigue"].

(** Section 1: the table behind the stacked bar chart *)
Definition phases_par_joueuse (df : DataFrame) : outcome crosstab :=
  counts ← pd.groupby_value_counts df "Joueuse" "Phase_Cycle";
  Ret (pd.unstack counts 0).

Definition section_1 (df : DataFrame) : M unit :=
  st.header "1. 🌸 Phases du Cycle par Joueuse";;
  st.container;;
  table ← lift (phases_par_joueuse df);
  fig1 ← lift (plt.plot_bar table "Phases du Cycle pour Chaque Joueuse");
  st.pyplot None fig1.

(** Section 2.1 *)
Definition section_2_1 (df : DataFrame) : M unit :=
  st.header "2. 💪 Corrélation entre Nutrition et Performance";;
  st.subheader "2.1. Corrélation Globale";;
  st.container;;
  df_correlation ← lift (pd.select df (variables_nutrition ++ variables_performance));
  corr_matrix ← lift (pd.corr df_correlation);
  st.pyplot None (plt.heatmap corr_matrix [Lit "Corrélation Globale"]).

(** The body shared by the four loops over groups:
    [if len(group) > 1: ... figs.append(fig)]. *)
Definition heatmap_if_many (group : DataFrame) (vars : list string)
    (title : list part) : outcome (list figure) :=
  if decide (1 < pd.len group) then
    selected ← pd.select group vars;
    corr ← pd.corr selected;
    Ret [plt.heatmap corr title]
  else Ret [].

(** Section 2.2 *)
Definition phase_figures (df : DataFrame) : outcome (list figure) :=
  phases ← pd.getitem df "Phase_Cycle";
  collect (pd.unique phases) (λ phase,
    df_phase ← pd.mask_eq df "Phase_Cycle" phase;
    heatmap_if_many df_phase (variables_nutrition ++ variables_performance)
      [Lit "Corrélation - "; Val phase]).

Definition section_2_2 (df : DataFrame) : M unit :=
  st.subheader "2.2. Corrélation par Phase de Cycle";;
  st.expander "Voir les Heatmaps par Phase de Cycle";;
  figs ← lift (phase_figures df);
  display_figures_in_columns figs 2.

(** Section 2.3 *)
Definition fig_list (df : DataFrame) : outcome (list figure) :=
  grouped ← pd.groupby2 df "Joueuse" "Phase_Cycle";
  collect grouped (λ kg,
    heatmap_if_many kg.2 (variables_nutrition ++ variables_performance)
      [Val kg.1.1; Lit " - "; Val kg.1.2]).

Definition section_2_3 (df : DataFrame) : M unit :=
  st.subheader "2.3. Corrélation par Joueuse et Phase de Cycle";;
  st.expander "Voir les Heatmaps par Joueuse et Phase";;
  figs ← lift (fig_list df);
  display_figures_in_columns figs 3.

(** Section 3: the options of the player selector *)
Definition joueuses (df : DataFrame) : outcome (list cell) :=
  col ← pd.getitem df "Joueuse";
  py.sorted (pd.unique col).

(** The rows plotted for a player. *)
Definition df_j (df : DataFrame) (selected_joueuse : cell) : outcome DataFrame :=
  sel ← pd.mask_eq df "Joueuse" selected_joueuse;
  pd.sort_values sel ["Date"].

Definition section_3 (df : DataFrame) : M unit :=
  st.header "3. 📈 Évolution des Variables par Joueuse";;
  st.container;;
  players ← lift (joueuses df);
  let variables := variables_nutrition ++ variables_performance ++ variables_symptomes in
  st.columns 2;;
  selected_joueuse ← st.selectbox (Some 0) "Joueuse" players;
  selected_variable ← st.selectbox (Some 1) "Variable" (CStr <$> variables);
  match selected_joueuse, selected_variable with
  | Some j, Some (CStr v) =>
      if truthy j && truthy (CStr v) then
        data ← lift (df_j df j);
        fig ← lift (plt.lineplot data "Date" v "Phase_Cycle" [Lit v; Lit " - "; Val j]);
        st.pyplot None fig
      else mret ()
  | _, _ => mret ()
  end.

(** Section 4.1 *)
Definition section_4_1 (df : DataFrame) : M unit :=
  st.header "4. 🤕 Impact des Symptômes sur la Performance";;
  st.subheader "4.1. Corrélation Globale";;
  st.container;;
  df_corr ← lift (pd.select df (variables_symptomes ++ variables_performance));
  matrix ← lift (pd.corr df_corr);
  st.pyplot None
    (plt.heatmap matrix [Lit "Corrélation Globale - Symptômes/Performance"]).

(** Section 4.2 *)
Definition figs_4_2 (df : DataFrame) : outcome (list figure) :=
  phases ← pd.getitem df "Phase_Cycle";
  collect (pd.unique phases) (λ phase,
    group ← pd.mask_eq df "Phase_Cycle" phase;
    heatmap_if_many group (variables_symptomes ++ variables_performance)
      [Val phase; Lit " - Symptômes/Performance"]).

Definition section_4_2 (df : DataFrame) : M unit :=
  st.subheader "4.2. Corrélation Symptômes/Performance par Phase";;
  st.expander "Voir les Heatmaps par Phase";;
  figs ← lift (figs_4_2 df);
  display_figures_in_columns figs 2.

(** Section 4.3 *)
Definition figs_4_3 (df : DataFrame) : outcome (list figure) :=
  grouped ← pd.groupby2 df "Joueuse" "Phase_Cycle";
  collect grouped (λ kg,
    heatmap_if_many kg.2 (variables_symptomes ++ variables_performance)
      [Val kg.1.1; Lit " - "; Val kg.1.2]).

Definition section_4_3 (df : DataFrame) : M unit :=
  st.subheader "4.3. Corrélation Symptômes/Performance par Joueuse et Phase";;
  st.expander "Voir les Heatmaps par Joueuse + Phase";;
  figs ← lift (figs_4_3 df);
  display_figures_in_columns figs 3.

(** Everything after [df = load_data()]. *)
Definition report (df : DataFrame) : M unit :=
  st.sidebar_header "⚙️ Options de l'Application";;
  raw ← st.sidebar_checkbox "Afficher les données brutes";
  (if raw : bool then
     st.subheader "📋 Données Brutes";; st.dataframe df
   else mret ());;
  section_1 df;;
  section_2_1 df;;
  section_2_2 df;;
  section_2_3 df;;
  section_3 df;;
  section_4_1 df;;
  section_4_2 df;;
  section_4_3 df;;
  st.markdown "---".

Section script.

(** How the library reads timestamps, see [pd.to_datetime]. *)
Variable coerce : list cell → cell → option Z.

(** [load_data].  Its decorator keeps the returned frame for later reruns
    of the script in the same process; in one run the body below is what
    the call at the top of the script does. *)
Definition load_data : M DataFrame :=
  try_except
    (df ← pd.read_excel xlsx;
     df ← (if decide ("Date" ∈ columns df) then
             let df := pd.assign df "Date" (pd.to_datetime coerce (column df "Date")) in
             let df := pd.dropna df ["Date"] in
             df ← lift (pd.sort_values df ["Joueuse"; "Date"]);
             mret (pd.reset_index df)
           else
             st.error "La colonne 'Date' est manquante.";; st.stop);
     check_columns required_columns df;;
     mret df)
    (λ e,
       match e with
       | FileNotFoundError _ =>
           st.error "Le fichier Excel n'a pas été trouvé.";; st.stop
       | _ =>
           st.error ("Erreur : " +:+ exn_str e);; st.stop
       end).

(** The whole script, top to bottom.  The page configuration and the
    plotting theme that come first set options and draw nothing. *)
Definition script : M unit :=
  st.title "📊 Analyse des Données de Performance des Joueuses";;
  st.markdown "Cette application interactive vous permet d'explorer les relations entre les phases du cycle menstruel, la nutrition, les symptômes et les performances sportives de chaque joueuse.";;
  df ← load_data;
  report df.

(** The script as the viewer sees it, run by [streamlit run]. *)
Definition dashboard : M unit := st.run script.

End script.

(** One run of the script: nothing opened and an empty page at the start. *)
Definition start (fs : gmap string file) (w : widget_state) : state :=
  {| files := fs; opened := []; widgets := w; page := [] |}.


(** * Vocabulary of the statements *)

(** The state [s] with [els] added at the end of the page. *)
Definition add_elements (s : state) (els : list element) : state :=
  {| files := files s; opened := opened s; widgets := widgets s;
     page := page s ++ els |}.

(** The state [s] after [path] has been opened. *)
Definition add_opened (s : state) (path : string) : state :=
  {| files := files s; opened := opened s ++ [path]; widgets := widgets s;
     page := page s |}.

(** A computation that only talks to the page: its result depends on the
    widget values alone, and all it does to the state is append elements. *)
Definition ui_only {A} (m : M A) : Prop :=
  ∀ w, ∃ o els, ∀ fs op pg,
    m {| files := fs; opened := op; widgets := w; page := pg |}
    = (o, {| files := fs; opened := op; widgets := w; page := pg ++ els |}).

(** The sheet after its dates are read and the rows without one dropped. *)
Definition cleaned (coerce : list cell → cell → option Z) (sheet : DataFrame)
  : DataFrame :=
  pd.dropna
    (pd.assign sheet "Date" (pd.to_datetime coerce (column sheet "Date")))
    ["Date"].

Definition missing_column_msg (col : string) : string :=
  "La colonne '" +:+ col +:+ "' est manquante.".

Definition is_chart (e : element) : Prop :=
  match e with Pyplot _ _ => True | _ => False end.

(** The input row [r] with its date read, if it has one. *)
Definition dated (coerce : list cell → cell → option Z) (sheet : DataFrame)
    (r : row) : option row :=
  (λ t, <["Date" := CDate t]> r) <$> coerce (column sheet "Date") (loc r "Date").

(** What the script draws before it loads the data. *)
Definition prelude : list element :=
  [Title "📊 Analyse des Données de Performance des Joueuses";
   Markdown "Cette application interactive vous permet d'explorer les relations entre les phases du cycle menstruel, la nutrition, les symptômes et les performances sportives de chaque joueuse."].

(** One row of the grid: the row of [cols_per_row] columns and the figures
    drawn in its first columns. *)
Definition render_row (cols_per_row : nat) (figs : list figure) : list element :=
  Columns cols_per_row :: imap (λ j fig, Pyplot (Some j) fig) figs.

(** The figures drawn by a list of elements, in order. *)
Definition charts_of (els : list element) : list figure :=
  omap (λ e, match e with Pyplot _ fig => Some fig | _ => None end) els.

(** The rows that [display_figures_in_columns] cuts a list into. *)
Definition grid_rows (fuel start cols_per_row : nat) (figures : list figure)
  : list (list figure) :=
  (λ i, py.slice figures i (i + cols_per_row))
    <$> py.range_from fuel start (length figures) cols_per_row.

(** The grid in which a list of figures is drawn. *)
Definition grid (cols_per_row : nat) (figures : list figure) : list element :=
  concat (render_row cols_per_row
            <$> grid_rows (length figures) 0 cols_per_row figures).

(** A number or an empty cell. *)
Definition num_or_empty (c : cell) : Prop :=
  match c with CNull | CNum _ => True | _ => False end.

Global Instance num_or_empty_dec c : Decision (num_or_empty c).
Proof. destruct c; simpl; apply _. Defined.

(** The columns [vars] of a frame hold numbers and empty cells only. *)
Definition numeric (df : DataFrame) (vars : list string) : Prop :=
  Forall (λ v, Forall num_or_empty (column df v)) vars.

Global Instance numeric_dec df vars : Decision (numeric df vars).
Proof. unfold numeric; apply _. Defined.

(** A frame whose columns are typed as the report takes them to be: the
    players are of one type, the phases are of one type, and the eight
    variables are numbers, with empty cells anywhere. *)
Definition typed (df : DataFrame) : Prop :=
  pd.homogeneous (column df "Joueuse") ∧
  pd.homogeneous (column df "Phase_Cycle") ∧
  numeric df (variables_nutrition ++ variables_performance ++ variables_symptomes).

Global Instance typed_dec df : Decision (typed df).
Proof. unfold typed; apply _. Defined.

(** The rows of a cycle phase. *)
Definition group_of_phase (df : DataFrame) (phase : cell) : DataFrame :=
  {| columns := columns df;
     rows := filter (λ r, phase ≠ CNull ∧ loc r "Phase_Cycle" = phase) (rows df) |}.

(** The rows of a player in a cycle phase. *)
Definition group_of_pair (df : DataFrame) (k : cell * cell) : DataFrame :=
  {| columns := columns df;
     rows := filter (λ r, (k.1 ≠ CNull ∧ loc r "Joueuse" = k.1) ∧
                          (k.2 ≠ CNull ∧ loc r "Phase_Cycle" = k.2)) (rows df) |}.











(** The phases, and the pairs of a player and a phase, that have two rows
    or more, in the order in which the sections go through them. *)
Definition large_phases (df : DataFrame) : list cell :=
  filter (λ phase, 2 ≤ pd.len (group_of_phase df phase))
    (pd.unique (column df "Phase_Cycle")).

Definition large_pairs (df : DataFrame) : list (cell * cell) :=
  filter (λ k, 2 ≤ pd.len (group_of_pair df k))
    (pd.stable_sort pd.pair_le
       (pd.unique (pd.key2 "Joueuse" "Phase_Cycle"
                     <$> pd.keyed "Joueuse" "Phase_Cycle" (rows df)))).


(** Position of a label among the row labels of a table. *)
Definition ct_position (labels : list cell) (x : cell) : option nat :=
  fst <$> list_find (λ y, y = x) labels.





(** Rows in the order of their dates. *)
Definition date_le (r1 r2 : row) : Prop := cell_le (loc r1 "Date") (loc r2 "Date").







(** Where figures are drawn: for each [Pyplot], the number of rows opened
    before it, its column and the figure. *)
Fixpoint placed (rows_seen : nat) (els : list element)
  : list (nat * option nat * figure) :=
  match els with
  | [] => []
  | Columns _ :: els' => placed (S rows_seen) els'
  | Pyplot slot fig :: els' => (rows_seen, slot, fig) :: placed rows_seen els'
  | _ :: els' => placed rows_seen els'
  end.

(** Neither an error box, nor a table of raw data, nor the box of an
    exception. *)
Definition plain (e : element) : Prop :=
  match e with
  | Error _ | Dataframe _ | ExceptionBox _ => False
  | _ => True
  end.

(** A computation that never stops the script and only adds plain
    elements to the page. *)
Definition quiet {A} (m : M A) : Prop :=
  ∀ s, ∃ o els, m s = (o, add_elements s els) ∧ o ≠ Stop ∧ Forall plain els.

(** The line plot of section 3. *)
Definition is_line_plot (e : element) : Prop :=
  match e with
  | Pyplot _ fig => match fig_chart fig with Lines _ _ _ _ => True | _ => False end
  | _ => False
  end.

Global Instance is_line_plot_dec e : Decision (is_line_plot e).
Proof. destruct e as [| | | | | | | | | | | |slot [[] ?]|]; simpl; apply _. Defined.



(** ** A sample run *)

(** A reader of timestamps that accepts timestamp cells only. *)
Definition sample_coerce (col : list cell) (c : cell) : option Z :=
  match c with CDate t => Some t | _ => None end.

Definition sample_row (joueuse date phase : cell) : row :=
  list_to_map
    [("Joueuse", joueuse); ("Date", date); ("Phase_Cycle", phase);
     ("Fer_mg", CNum (Qc_of_Z 12)); ("Hydratation_L", CNum (Qc_of_Z 2));
     ("Sprints", CNum (Qc_of_Z 9)); ("Distance_km", CNum (Qc_of_Z 7));
     ("Precision_Passes", CNum (Qc_of_Z 80)); ("Humeur", CNum (Qc_of_Z 3));
     ("Crampes", CNum (Qc_of_Z 1)); ("Fatigue", CNum (Qc_of_Z 4))].

Definition sample_columns : list string :=
  ["Joueuse"; "Date"; "Phase_Cycle"; "Fer_mg"; "Hydratation_L"; "Sprints";
   "Distance_km"; "Precision_Passes"; "Humeur"; "Crampes"; "Fatigue"].

(** Two players; one row has no readable date, one has no phase. *)
Definition sample_sheet : DataFrame :=
  {| columns := sample_columns;
     rows := [sample_row (CStr "B") (CDate 5) (CStr "Luteale");
              sample_row (CStr "A") (CDate 7) (CStr "Folliculaire");
              sample_row (CStr "A") (CDate 3) (CStr "Folliculaire");
              sample_row (CStr "A") (CStr "?") (CStr "Folliculaire");
              sample_row (CStr "B") (CDate 1) CNull] |}.

Definition sample_loaded : DataFrame :=
  {| columns := sample_columns;
     rows := [sample_row (CStr "A") (CDate 3) (CStr "Folliculaire");
              sample_row (CStr "A") (CDate 7) (CStr "Folliculaire");
              sample_row (CStr "B") (CDate 1) CNull;
              sample_row (CStr "B") (CDate 5) (CStr "Luteale")] |}.

Definition sample_widgets : widget_state :=
  {| checkbox_value := λ _, false; selectbox_choice := λ _, 0 |}.

Definition sample_state : state :=
  start {[ xlsx := Workbook sample_sheet ]} sample_widgets.

(** A sheet in which one row names no player. *)
Definition sample_sheet_unnamed : DataFrame :=
  {| columns := sample_columns;
     rows := [sample_row (CStr "A") (CDate 1) (CStr "Folliculaire");
              sample_row CNull (CDate 2) (CStr "Folliculaire")] |}.

Definition sample_state_unnamed : state :=
  start {[ xlsx := Workbook sample_sheet_unnamed ]} sample_widgets.

(** A sheet in which the players are a number and a text, with one row
    that names no player and one without a readable date. *)
Definition sample_sheet_mixed : DataFrame :=
  {| columns := sample_columns;
     rows := [sample_row (CStr "A") (CDate 4) (CStr "Luteale");
              sample_row CNull (CDate 2) (CStr "Luteale");
              sample_row (CNum (Qc_of_Z 7)) (CDate 9) (CStr "Folliculaire");
              sample_row (CNum (Qc_of_Z 7)) CNull (CStr "Folliculaire");
              sample_row (CNum (Qc_of_Z 7)) (CDate 6) (CStr "Luteale")] |}.

Definition sample_loaded_mixed : DataFrame :=
  {| columns := sample_columns;
     rows := [sample_row (CNum (Qc_of_Z 7)) (CDate 6) (CStr "Luteale");
              sample_row (CNum (Qc_of_Z 7)) (CDate 9) (CStr "Folliculaire");
              sample_row (CStr "A") (CDate 4) (CStr "Luteale");
              sample_row CNull (CDate 2) (CStr "Luteale")] |}.

Definition sample_state_mixed : state :=
  start {[ xlsx := Workbook sample_sheet_mixed ]} sample_widgets.

(** A sheet in which one iron value is a text. *)
Definition sample_sheet_text : DataFrame :=
  {| columns := sample_columns;
     rows := [sample_row (CStr "A") (CDate 1) (CStr "Folliculaire");
              <["Fer_mg" := CStr "faible"]>
                (sample_row (CStr "A") (CDate 2) (CStr "Folliculaire"))] |}.

Definition sample_state_text : state :=
  start {[ xlsx := Workbook sample_sheet_text ]} sample_widgets.

Definition sample_figure (name : string) : figure :=
  {| fig_chart := Heatmap (Pearson {| columns := []; rows := [] |});
     fig_title := [Lit name] |}.

(** A sheet that lacks the performance and symptom columns. *)
Definition sample_sheet_short : DataFrame :=
  {| columns := ["Joueuse"; "Date"; "Phase_Cycle"; "Fer_mg"; "Hydratation_L"];
     rows := [list_to_map [("Joueuse", CStr "A"); ("Date", CDate 1);
                           ("Phase_Cycle", CStr "Luteale");
                           ("Fer_mg", CNum (Qc_of_Z 12));
                           ("Hydratation_L", CNum (Qc_of_Z 2))]] |}.

Definition sample_state_short : state :=
  start {[ xlsx := Workbook sample_sheet_short ]} sample_widgets.




(** * Properties *)

(** ** The order on cells *)

Global Instance cell_le_refl : Reflexive cell_le.
Proof. intros []; simpl; try lia; reflexivity. Qed.

Global Instance cell_le_trans : Transitive cell_le.
Proof.
  intros [] [] []; simpl; try lia; intros H1 H2;
    solve [ etransitivity; eassumption | eapply Qcle_trans; eassumption ].
Qed.

Global Instance cell_le_total : Total cell_le.
Proof.
  intros [] []; simpl; try lia.
  - apply Qc_le_total.
  - apply String.le_total.
Qed.

Global Instance cell_le_antisym : AntiSymm (=) cell_le.
Proof.
  intros [] []; simpl; try lia; intros H1 H2; try reflexivity; f_equal.
  - by apply Qcle_antisym.
  - by apply (anti_symm String.le).
  - lia.
Qed.

Lemma cell_lt_le a b : cell_lt a b → cell_le a b.
Proof. by intros [? _]. Qed.

Lemma cell_lt_irrefl a : ¬ cell_lt a a.
Proof. by intros [_ ?]. Qed.

Lemma cell_lt_trans a b c : cell_lt a b → cell_lt b c → cell_lt a c.
Proof.
  intros [Hab Hne] [Hbc Hne']. split; [by etransitivity|].
  intros ->. apply Hne. by apply (anti_symm cell_le).
Qed.

Lemma cell_trichotomy a b : cell_lt a b ∨ a = b ∨ cell_lt b a.
Proof.
  destruct (decide (a = b)) as [|Hne]; [by right; left|].
  destruct (total cell_le a b); [left|right; right]; split; congruence.
Qed.

Global Instance lex_le_total by_ : Total (pd.lex_le by_).
Proof.
  induction by_ as [|c by_ IH]; intros r1 r2; simpl; [by left|].
  destruct (cell_trichotomy (loc r1 c) (loc r2 c)) as [?|[Heq|?]]; [by left; left| |by right; left].
  destruct (IH r1 r2); [left|right]; right; by rewrite Heq.
Qed.

Global Instance lex_le_trans by_ : Transitive (pd.lex_le by_).
Proof.
  induction by_ as [|c by_ IH]; intros r1 r2 r3; simpl; [done|].
  intros [H12|[E12 H12]] [H23|[E23 H23]].
  - left. by eapply cell_lt_trans.
  - left. by rewrite <- E23.
  - left. by rewrite E12.
  - right. split; [congruence|]. by eapply IH.
Qed.

(** ** The stable sort *)

Section stable_sort.
Context {A : Type} (R : relation A) `{!RelDecision R}.

Lemma insert_by_Permutation x l : pd.insert_by R x l ≡ₚ x :: l.
Proof.
  induction l as [|y l IH]; simpl; [done|]. case_decide; [done|].
  by rewrite IH, Permutation_swap.
Qed.

Lemma stable_sort_Permutation l : pd.stable_sort R l ≡ₚ l.
Proof.
  induction l as [|x l IH]; simpl; [done|].
  by rewrite insert_by_Permutation, IH.
Qed.

Lemma HdRel_insert_by x y l :
  R y x → HdRel R y l → HdRel R y (pd.insert_by R x l).
Proof.
  intros Hyx Hd. destruct l as [|z l]; simpl; [by constructor|].
  case_decide; constructor; [done|]. by inversion Hd.
Qed.

Lemma Sorted_insert_by `{!Total R} x l :
  Sorted R l → Sorted R (pd.insert_by R x l).
Proof.
  induction 1 as [|y l Hs IH Hd]; simpl; [by repeat constructor|].
  case_decide as Hxy.
  - by repeat constructor.
  - constructor; [done|]. apply HdRel_insert_by; [|done].
    by destruct (total R x y).
Qed.

Lemma Sorted_stable_sort `{!Total R} l : Sorted R (pd.stable_sort R l).
Proof.
  induction l as [|x l IH]; simpl; [constructor|]. by apply Sorted_insert_by.
Qed.


(** A sorted list is left as it is. *)
Lemma stable_sort_sorted l : Sorted R l → pd.stable_sort R l = l.
Proof.
  induction 1 as [|x l Hs IH Hd]; simpl; [done|]. rewrite IH.
  destruct Hd as [|y l Hxy]; simpl; [done|]. by rewrite decide_True.
Qed.



End stable_sort.

(** Consecutive elements of a sorted list are related. *)
Lemma Sorted_consecutive {A} (R : relation A) (l : list A) i x y :
  Sorted R l → l !! i = Some x → l !! S i = Some y → R x y.
Proof.
  intros Hs. revert i. induction Hs as [|a l Hs IH Hd]; intros i Hx Hy; [done|].
  destruct i as [|i]; simpl in *.
  - injection Hx as ->. destruct Hd as [|b l' Hab]; simpl in *; [done|].
    by injection Hy as ->.
  - by eapply IH.
Qed.

(** ** Running computations *)

Lemma bind_run {A B} (m : M A) (f : A → M B) s :
  (m ≫= f) s =
  match m s with
  | (Ret a, s') => f a s'
  | (Raise e, s') => (Raise e, s')
  | (Stop, s') => (Stop, s')
  end.
Proof. reflexivity. Qed.

Lemma emit_run e s : emit e s = (Ret (), add_elements s [e]).
Proof. reflexivity. Qed.

Lemma add_elements_nil s : add_elements s [] = s.
Proof. destruct s; unfold add_elements; simpl. by rewrite app_nil_r. Qed.

Lemma add_elements_app s l1 l2 :
  add_elements (add_elements s l1) l2 = add_elements s (l1 ++ l2).
Proof. unfold add_elements; simpl. by rewrite app_assoc. Qed.

Lemma ui_only_run {A} (m : M A) s :
  ui_only m → ∃ o els, m s = (o, add_elements s els).
Proof.
  intros H. destruct (H (widgets s)) as (o & els & Hm).
  exists o, els. destruct s as [fs op w pg]. apply Hm.
Qed.

Lemma ui_only_ret {A} (a : A) : ui_only (mret a).
Proof. intros w. exists (Ret a), []. intros. by rewrite app_nil_r. Qed.

Lemma ui_only_lift {A} (o : outcome A) : ui_only (lift o).
Proof. intros w. exists o, []. intros. unfold lift. by rewrite app_nil_r. Qed.

Lemma ui_only_stop {A} : ui_only (@st.stop A).
Proof. intros w. exists Stop, []. intros. unfold st.stop. by rewrite app_nil_r. Qed.

Lemma ui_only_emit e : ui_only (emit e).
Proof. intros w. exists (Ret ()), [e]. done. Qed.

Lemma ui_only_get_widgets : ui_only get_widgets.
Proof. intros w. exists (Ret w), []. intros. unfold get_widgets; simpl. by rewrite app_nil_r. Qed.

Lemma ui_only_bind {A B} (m : M A) (f : A → M B) :
  ui_only m → (∀ a, ui_only (f a)) → ui_only (m ≫= f).
Proof.
  intros Hm Hf w. destruct (Hm w) as (o & els & Ho).
  destruct o as [a|e|].
  - destruct (Hf a w) as (o' & els' & Ho'). exists o', (els ++ els').
    intros. rewrite bind_run, Ho, Ho'. by rewrite app_assoc.
  - exists (Raise e), els. intros. by rewrite bind_run, Ho.
  - exists Stop, els. intros. by rewrite bind_run, Ho.
Qed.

Lemma ui_only_for {A} (l : list A) (body : A → M unit) :
  (∀ x, ui_only (body x)) → ui_only (for_ l body).
Proof.
  intros Hb. induction l as [|x l IH]; simpl.
  - apply ui_only_ret.
  - apply ui_only_bind; [apply Hb|]. intros _. apply IH.
Qed.

(** Every page call and every report section only talks to the page. *)
Ltac ui_only_tac :=
  repeat first
    [ progress (unfold st.title, st.markdown, st.header, st.subheader, st.error,
         st.dataframe, st.container, st.expander, st.pyplot, st.sidebar_header,
         st.sidebar_checkbox, st.selectbox, st.columns)
    | apply ui_only_ret | apply ui_only_lift | apply ui_only_stop
    | apply ui_only_emit | apply ui_only_get_widgets
    | apply ui_only_for; intros ?
    | apply ui_only_bind; [|intros ?]
    | match goal with
      | |- ui_only (match ?x with _ => _ end) => destruct x
      end ].

Lemma ui_only_display figures cols_per_row :
  ui_only (display_figures_in_columns figures cols_per_row).
Proof. unfold display_figures_in_columns. ui_only_tac. Qed.

Lemma ui_only_report df : ui_only (report df).
Proof.
  unfold report, section_1, section_2_1, section_2_2, section_2_3, section_3,
    section_4_1, section_4_2, section_4_3.
  ui_only_tac; apply ui_only_display.
Qed.

Lemma check_columns_run cols df s :
  check_columns cols df s =
  match list_find (λ c, c ∉ columns df) cols with
  | None => (Ret (), s)
  | Some (_, c) => (Stop, add_elements s [Error (missing_column_msg c)])
  end.
Proof.
  induction cols as [|c cols IH]; simpl; [done|].
  rewrite bind_run. destruct (decide (c ∈ columns df)) as [Hin|Hout].
  - rewrite decide_False by (by intros ?). simpl. rewrite IH.
    by destruct (list_find _ cols) as [[]|].
  - rewrite decide_True by done. reflexivity.
Qed.

(** ** [load_data] case by case *)

Lemma sort_values_not_missing_file df by_ path :
  pd.sort_values df by_ ≠ Raise (FileNotFoundError path).
Proof.
  unfold pd.sort_values. destruct (list_find _ by_) as [[]|]; [done|].
  destruct by_ as [|c [|c' by_]]; by case_decide.
Qed.

Lemma sort_values_not_stop df by_ : pd.sort_values df by_ ≠ Stop.
Proof.
  unfold pd.sort_values. destruct (list_find _ by_) as [[]|]; [done|].
  destruct by_ as [|c [|c' by_]]; by case_decide.
Qed.

Lemma load_data_run coerce s :
  load_data coerce s =
  let s1 := add_opened s xlsx in
  match files s !! xlsx with
  | None => (Stop, add_elements s1 [Error "Le fichier Excel n'a pas été trouvé."])
  | Some (Unreadable msg) => (Stop, add_elements s1 [Error ("Erreur : " +:+ msg)])
  | Some (Workbook sheet) =>
      if decide ("Date" ∈ columns sheet) then
        match pd.sort_values (cleaned coerce sheet) ["Joueuse"; "Date"] with
        | Ret df =>
            match list_find (λ c, c ∉ columns df) required_columns with
            | None => (Ret df, s1)
            | Some (_, c) => (Stop, add_elements s1 [Error (missing_column_msg c)])
            end
        | Raise e => (Stop, add_elements s1 [Error ("Erreur : " +:+ exn_str e)])
        | Stop => (Stop, s1)
        end
      else (Stop, add_elements s1 [Error "La colonne 'Date' est manquante."])
  end.
Proof.
  unfold load_data, try_except. rewrite bind_run. unfold pd.read_excel.
  destruct (files s !! xlsx) as [[sheet|msg]|]; [|done|done].
  rewrite bind_run. destruct (decide ("Date" ∈ columns sheet)); [|done].
  rewrite bind_run. unfold lift. fold (cleaned coerce sheet).
  pose proof (sort_values_not_missing_file (cleaned coerce sheet) ["Joueuse"; "Date"]) as Hnf.
  destruct (pd.sort_values _ _) as [df|err|]; [| |done].
  - unfold mret at 1, M_ret. rewrite bind_run, check_columns_run. unfold pd.reset_index.
    by destruct (list_find _ required_columns) as [[]|].
  - destruct err; try done. by destruct (Hnf path).
Qed.

Lemma find_missing_None (cols have : list string) :
  list_find (λ c, c ∉ have) cols = None ↔ Forall (λ c, c ∈ have) cols.
Proof.
  rewrite list_find_None. apply Forall_iff. intros c. split.
  - apply dec_stable.
  - by intros ? ?.
Qed.

(** A sort on two keys. *)
Lemma sort_values_2 df c1 c2 :
  pd.sort_values df [c1; c2] =
  match list_find (λ c, c ∉ columns df) [c1; c2] with
  | Some (_, c) => Raise (KeyError c)
  | None =>
      if decide (pd.orderable (column df c1) ∧ pd.orderable (column df c2)) then
        Ret {| columns := columns df;
               rows := pd.stable_sort (pd.lex_le [c1; c2]) (rows df) |}
      else Raise (TypeError "'values' is not ordered, please explicitly specify the categories order by passing in a categories argument.")
  end.
Proof.
  unfold pd.sort_values. destruct (list_find _ _) as [[]|]; [done|].
  destruct (decide (pd.orderable (column df c1) ∧ pd.orderable (column df c2)))
    as [[H1 H2]|Hno].
  - rewrite decide_True; [done|]. by repeat constructor.
  - rewrite decide_False; [done|]. intros H. apply Hno.
    apply Forall_cons_1 in H as [? [? _]%Forall_cons_1]. done.
Qed.

Lemma sort_values_Ret df c1 c2 sorted_df :
  pd.sort_values df [c1; c2] = Ret sorted_df →
  Forall (λ c, c ∈ columns df) [c1; c2] ∧
  pd.orderable (column df c1) ∧
  pd.orderable (column df c2) ∧
  columns sorted_df = columns df ∧
  rows sorted_df = pd.stable_sort (pd.lex_le [c1; c2]) (rows df).
Proof.
  rewrite sort_values_2. destruct (list_find _ _) as [[]|] eqn:Hfind; [done|].
  case_decide as Hord; [|done]. intros [= <-]. destruct Hord.
  by apply find_missing_None in Hfind.
Qed.

(** What a successful load tells about the sheet and the frame. *)
Lemma load_data_Ret coerce s df :
  (load_data coerce s).1 = Ret df →
  ∃ sheet,
    files s !! xlsx = Some (Workbook sheet) ∧
    Forall (λ c, c ∈ columns sheet) ("Date" :: required_columns) ∧
    pd.orderable (column (cleaned coerce sheet) "Joueuse") ∧
    columns df = columns sheet ∧
    rows df = pd.stable_sort (pd.lex_le ["Joueuse"; "Date"])
                (rows (cleaned coerce sheet)).
Proof.
  rewrite load_data_run. cbv zeta.
  destruct (files s !! xlsx) as [[sheet|msg]|]; [|done|done].
  case_decide as HDate; [|done].
  destruct (pd.sort_values _ _) as [df'|err|] eqn:Hsort; [|done|done].
  destruct (list_find _ required_columns) as [[]|] eqn:Hreq; [done|].
  intros [= ->]. apply find_missing_None in Hreq.
  apply sort_values_Ret in Hsort as (_ & Hord & _ & Hcols & Hrows).
  exists sheet. split; [done|]. rewrite Hcols in Hreq. simpl in Hcols.
  repeat split; try done. by constructor.
Qed.

(** A load that does not return stops the script after one error box. *)
Lemma load_data_halts coerce s :
  (∃ df, load_data coerce s = (Ret df, add_opened s xlsx)) ∨
  (∃ msg, load_data coerce s = (Stop, add_elements (add_opened s xlsx) [Error msg])).
Proof.
  rewrite load_data_run. cbv zeta.
  destruct (files s !! xlsx) as [[sheet|msg]|]; [|right; eauto..].
  case_decide as HDate; [|right; eauto].
  pose proof (sort_values_not_stop (cleaned coerce sheet) ["Joueuse"; "Date"]).
  destruct (pd.sort_values _ _) as [df'|err|] eqn:Hsort; [|right; eauto|done].
  destruct (list_find _ required_columns) as [[]|]; [right|left]; eauto.
Qed.

(** ** Loading and validation *)

(** C1. [load_data] returns a frame only when the spreadsheet could be read
    and has the column Date and every required column; when the file is
    missing or one of these columns is absent, it shows one error box,
    stops the script, and returns no frame.  It never does anything else
    than return a frame or stop after one error box. *)
Theorem load_data_validates coerce s :
  (∀ df, (load_data coerce s).1 = Ret df →
     ∃ sheet, files s !! xlsx = Some (Workbook sheet) ∧
              Forall (λ c, c ∈ columns sheet) ("Date" :: required_columns) ∧
              columns df = columns sheet) ∧
  ((files s !! xlsx = None ∨
    ∃ sheet c, files s !! xlsx = Some (Workbook sheet) ∧
               c ∈ "Date" :: required_columns ∧ c ∉ columns sheet) →
   ∃ msg, load_data coerce s = (Stop, add_elements (add_opened s xlsx) [Error msg])) ∧
  ((∃ df, load_data coerce s = (Ret df, add_opened s xlsx)) ∨
   (∃ msg, load_data coerce s = (Stop, add_elements (add_opened s xlsx) [Error msg]))).
Proof.
  split; [|split; [|apply load_data_halts]].
  - intros df (sheet & Hf & Hcols & _ & Hc & _)%load_data_Ret. eauto.
  - intros Hbad. destruct (load_data_halts coerce s) as [[df Hok]|]; [|done].
    exfalso. assert ((load_data coerce s).1 = Ret df) as Hret by (by rewrite Hok).
    apply load_data_Ret in Hret as (sheet & Hf & Hcols & _).
    destruct Hbad as [Hnone|(sheet' & c & Hf' & Hc & Hout)]; [congruence|].
    assert (sheet' = sheet) as -> by congruence.
    rewrite Forall_forall in Hcols. by apply Hout, Hcols.
Qed.

(** ** Dates *)

Lemma loc_insert (r : gmap string cell) c v : loc (<[c := v]> r) c = v.
Proof. unfold loc. by rewrite lookup_insert_eq. Qed.

Lemma cleaned_rows coerce sheet :
  rows (cleaned coerce sheet) = omap (dated coerce sheet) (rows sheet).
Proof.
  unfold cleaned, pd.dropna, pd.assign; simpl.
  induction (rows sheet) as [|r l IH]; [done|].
  rewrite fmap_cons, filter_cons, IH. simpl omap.
  assert (dated coerce sheet r =
          (λ t, <["Date" := CDate t]> r) <$> coerce (column sheet "Date") (loc r "Date"))
    as -> by done.
  set (v := pd.to_datetime coerce (column sheet "Date") (loc r "Date")).
  assert (v = match coerce (column sheet "Date") (loc r "Date") with
              | Some t => CDate t
              | None => CNull
              end) as Hv by done.
  destruct (coerce (column sheet "Date") (loc r "Date")) as [t|]; simpl.
  - rewrite decide_True; [by rewrite Hv|].
    constructor; [|constructor]. by rewrite loc_insert, Hv.
  - rewrite decide_False; [done|].
    intros [H _]%Forall_cons_1. by rewrite loc_insert in H.
Qed.

Lemma loaded_rows coerce s df sheet :
  (load_data coerce s).1 = Ret df → files s !! xlsx = Some (Workbook sheet) →
  rows df ≡ₚ omap (dated coerce sheet) (rows sheet).
Proof.
  intros (sheet' & Hf & _ & _ & _ & Hrows)%load_data_Ret Hf'.
  assert (sheet' = sheet) as -> by congruence.
  by rewrite Hrows, stable_sort_Permutation, cleaned_rows.
Qed.

Lemma loaded_rows_dated coerce s df r :
  (load_data coerce s).1 = Ret df → r ∈ rows df → ∃ t, loc r "Date" = CDate t.
Proof.
  intros Hload Hr.
  destruct (load_data_Ret _ _ _ Hload) as (sheet & Hf & _).
  rewrite (loaded_rows _ _ _ _ Hload Hf) in Hr.
  apply list_elem_of_omap in Hr as (r0 & _ & Hd). unfold dated in Hd.
  destruct (coerce _ _) as [t|]; [|done]. injection Hd as <-.
  exists t. apply loc_insert.
Qed.

(** C2. Rows whose Date cannot be read are dropped: every row of the frame
    that [load_data] returns has a timestamp in Date, every row of the
    sheet whose Date is read is kept (with the timestamp in place of the
    cell), and the frame has no other rows. *)
Theorem load_data_drops_undated coerce s df sheet :
  (load_data coerce s).1 = Ret df →
  files s !! xlsx = Some (Workbook sheet) →
  (∀ r, r ∈ rows df → ∃ t, loc r "Date" = CDate t) ∧
  (∀ r t, r ∈ rows sheet →
     coerce (column sheet "Date") (loc r "Date") = Some t →
     <["Date" := CDate t]> r ∈ rows df) ∧
  rows df ≡ₚ omap (dated coerce sheet) (rows sheet).
Proof.
  intros Hload Hf. split; [|split].
  - intros r Hr. by apply (loaded_rows_dated coerce s df r).
  - intros r t Hr Ht. rewrite (loaded_rows _ _ _ _ Hload Hf).
    apply list_elem_of_omap. exists r. split; [done|].
    unfold dated. by rewrite Ht.
  - by apply (loaded_rows coerce s).
Qed.

(** ** Order of the loaded frame *)

Lemma loaded_sorted coerce s df :
  (load_data coerce s).1 = Ret df →
  Sorted (pd.lex_le ["Joueuse"; "Date"]) (rows df).
Proof.
  intros (sheet & _ & _ & _ & _ & ->)%load_data_Ret.
  apply Sorted_stable_sort, _.
Qed.

(** C3. The frame that [load_data] returns is sorted by player, then by
    date: of two consecutive rows, the first one's Joueuse precedes or
    equals the second one's, and when the two are equal the first one's
    Date is not later than the second one's. *)
Theorem load_data_sorted coerce s df i r1 r2 :
  (load_data coerce s).1 = Ret df →
  rows df !! i = Some r1 →
  rows df !! S i = Some r2 →
  (cell_lt (loc r1 "Joueuse") (loc r2 "Joueuse") ∨
   loc r1 "Joueuse" = loc r2 "Joueuse") ∧
  (loc r1 "Joueuse" = loc r2 "Joueuse" →
   ∃ t1 t2, loc r1 "Date" = CDate t1 ∧ loc r2 "Date" = CDate t2 ∧ (t1 ≤ t2)%Z).
Proof.
  intros Hload H1 H2.
  pose proof (Sorted_consecutive _ _ _ _ _ (loaded_sorted _ _ _ Hload) H1 H2) as Hle.
  destruct (loaded_rows_dated _ _ _ r1 Hload) as [t1 Ht1]; [by eapply list_elem_of_lookup_2|].
  destruct (loaded_rows_dated _ _ _ r2 Hload) as [t2 Ht2]; [by eapply list_elem_of_lookup_2|].
  simpl in Hle. rewrite Ht1, Ht2 in Hle. split.
  - destruct Hle as [?|[-> _]]; [by left|by right].
  - intros Heq. exists t1, t2. repeat split; try done.
    destruct Hle as [Hlt|[_ [Hlt|[[= ->] _]]]].
    + rewrite Heq in Hlt. by destruct (cell_lt_irrefl _ Hlt).
    + by destruct Hlt as [Hlt _].
    + lia.
Qed.

(** ** The script as a pipeline *)

Lemma script_run coerce s :
  script coerce s =
  match load_data coerce (add_elements s prelude) with
  | (Ret df, s1) => report df s1
  | (Raise e, s1) => (Raise e, s1)
  | (Stop, s1) => (Stop, s1)
  end.
Proof.
  unfold script, st.title, st.markdown.
  rewrite bind_run, emit_run, bind_run, emit_run, add_elements_app.
  by rewrite bind_run.
Qed.

(** The result of [load_data] and the error it shows are a function of the
    spreadsheet file alone. *)
Lemma load_data_factors coerce :
  ∃ F : option file → outcome DataFrame * list element,
    ∀ s, load_data coerce s =
         ((F (files s !! xlsx)).1,
          add_elements (add_opened s xlsx) (F (files s !! xlsx)).2).
Proof.
  exists (λ f,
    match f with
    | None => (Stop, [Error "Le fichier Excel n'a pas été trouvé."])
    | Some (Unreadable msg) => (Stop, [Error ("Erreur : " +:+ msg)])
    | Some (Workbook sheet) =>
        if decide ("Date" ∈ columns sheet) then
          match pd.sort_values (cleaned coerce sheet) ["Joueuse"; "Date"] with
          | Ret df =>
              match list_find (λ c, c ∉ columns df) required_columns with
              | None => (Ret df, [])
              | Some (_, c) => (Stop, [Error (missing_column_msg c)])
              end
          | Raise e => (Stop, [Error ("Erreur : " +:+ exn_str e)])
          | Stop => (Stop, [])
          end
        else (Stop, [Error "La colonne 'Date' est manquante."])
    end).
  intros s. rewrite load_data_run. cbv zeta.
  destruct (files s !! xlsx) as [[sheet|msg]|]; [|done|done].
  case_decide; [|done].
  destruct (pd.sort_values _ _) as [df|err|]; [|done|by rewrite add_elements_nil].
  destruct (list_find _ required_columns) as [[]|]; [done|].
  by rewrite add_elements_nil.
Qed.

Lemma load_data_any_page coerce s els :
  (load_data coerce (add_elements s els)).1 = (load_data coerce s).1.
Proof.
  destruct (load_data_factors coerce) as [F HF]. by rewrite !HF.
Qed.

Lemma loaded_columns coerce s df :
  (load_data coerce s).1 = Ret df →
  Forall (λ c, c ∈ columns df) ("Date" :: required_columns).
Proof.
  intros (sheet & _ & Hcols & _ & -> & _)%load_data_Ret. done.
Qed.

(** C4. The script is one pipeline, load, validate, render: when
    [load_data] fails (missing file, missing column, any other exception)
    the run stops after the error box and the page holds no chart; a chart
    is on the page only if [load_data] returned a frame that has every
    required column, and then the page is the one the report sections draw
    from that frame. *)
Theorem script_is_load_then_render coerce fs w :
  ((∃ df, (load_data coerce (start fs w)).1 = Ret df ∧
          script coerce (start fs w) =
          report df {| files := fs; opened := [xlsx]; widgets := w;
                       page := prelude |}) ∨
   (∃ msg, (load_data coerce (start fs w)).1 = Stop ∧
           (script coerce (start fs w)).1 = Stop ∧
           page (script coerce (start fs w)).2 = prelude ++ [Error msg])) ∧
  (∀ e, e ∈ page (script coerce (start fs w)).2 → is_chart e →
     ∃ df, (load_data coerce (start fs w)).1 = Ret df ∧
           Forall (λ c, c ∈ columns df) ("Date" :: required_columns)).
Proof.
  assert ((∃ df, (load_data coerce (start fs w)).1 = Ret df ∧
          script coerce (start fs w) =
          report df {| files := fs; opened := [xlsx]; widgets := w;
                       page := prelude |}) ∨
   (∃ msg, (load_data coerce (start fs w)).1 = Stop ∧
           (script coerce (start fs w)).1 = Stop ∧
           page (script coerce (start fs w)).2 = prelude ++ [Error msg])) as Hcases.
  { rewrite script_run, <- (load_data_any_page coerce (start fs w) prelude).
    destruct (load_data_halts coerce (add_elements (start fs w) prelude))
      as [[df ->]|[msg ->]]; [left|right]; eauto. }
  split; [done|]. intros e He Hchart.
  destruct Hcases as [(df & Hdf & _)|(msg & _ & _ & Hpage)].
  - exists df. split; [done|]. by eapply loaded_columns.
  - rewrite Hpage in He. unfold prelude in He.
    repeat (apply elem_of_cons in He as [->|He]; [done|]).
    by apply elem_of_nil in He.
Qed.

(** ** Files *)

(** C7. The script keeps no durable state: [load_data] opens the one
    spreadsheet and nothing else, the report sections open nothing, no file
    is changed by either, and what a run shows depends on the disk only
    through that spreadsheet. *)
Theorem script_only_reads_the_spreadsheet coerce :
  (∀ s, files (load_data coerce s).2 = files s ∧
        opened (load_data coerce s).2 = opened s ++ [xlsx]) ∧
  (∀ df s, files (report df s).2 = files s ∧
           opened (report df s).2 = opened s) ∧
  (∀ s, files (script coerce s).2 = files s ∧
        opened (script coerce s).2 = opened s ++ [xlsx]) ∧
  (∀ s1 s2, files s1 !! xlsx = files s2 !! xlsx →
            widgets s1 = widgets s2 → page s1 = page s2 →
            (script coerce s1).1 = (script coerce s2).1 ∧
            page (script coerce s1).2 = page (script coerce s2).2).
Proof.
  assert (∀ s, files (load_data coerce s).2 = files s ∧
               opened (load_data coerce s).2 = opened s ++ [xlsx]) as Hload.
  { intros s. by destruct (load_data_halts coerce s) as [[df ->]|[msg ->]]. }
  assert (∀ df s, files (report df s).2 = files s ∧
                  opened (report df s).2 = opened s) as Hreport.
  { intros df s. destruct (ui_only_run (report df) s (ui_only_report df))
      as (o & els & ->). done. }
  split; [done|]. split; [done|]. split.
  - intros s. rewrite script_run.
    pose proof (Hload (add_elements s prelude)) as [Hf Ho].
    destruct (load_data coerce (add_elements s prelude)) as [[df|e|] s1]; try done.
    destruct (Hreport df s1) as [-> ->]. done.
  - intros s1 s2 Hfile Hw Hpage. rewrite !script_run.
    destruct (load_data_factors coerce) as [F HF]. rewrite !HF. simpl.
    rewrite <- Hfile. destruct (F (files s1 !! xlsx)) as [[df|e|] els]; simpl;
      [|by rewrite Hpage..].
    destruct (ui_only_report df (widgets s1)) as (o & out & Hrun).
    unfold add_elements, add_opened; simpl.
    rewrite Hrun. rewrite <- Hw, Hrun. simpl. by rewrite Hpage.
Qed.

(** ** The grid of figures *)

Lemma ceil_div_step x c :
  0 < x → 0 < c → (x + c - 1) / c = S ((x - c + c - 1) / c).
Proof.
  intros Hx Hc. destruct (le_lt_dec c x) as [Hle|Hlt].
  - replace (x + c - 1) with ((x - c + c - 1) + 1 * c) by lia.
    rewrite Nat.div_add by lia. lia.
  - replace (x - c + c - 1) with (c - 1) by lia.
    replace (x + c - 1) with ((x - 1) + 1 * c) by lia.
    rewrite Nat.div_add by lia. rewrite !Nat.div_small by lia. done.
Qed.

Lemma range_from_length fuel start stop step :
  0 < step → stop - start ≤ fuel →
  length (py.range_from fuel start stop step) = (stop - start + step - 1) / step.
Proof.
  intros Hstep. revert start.
  induction fuel as [|fuel IH]; intros start Hfuel; simpl.
  - replace (stop - start) with 0 by lia. by rewrite Nat.div_small by lia.
  - case_decide as Hlt; simpl.
    + rewrite IH by lia. rewrite (ceil_div_step (stop - start)) by lia.
      do 2 f_equal. lia.
    + replace (stop - start) with 0 by lia. by rewrite Nat.div_small by lia.
Qed.

Lemma slice_row {A} (l : list A) i c : py.slice l i (i + c) = take c (drop i l).
Proof. unfold py.slice. f_equal. lia. Qed.

Lemma grid_rows_concat fuel start c figures :
  0 < c → length figures - start ≤ fuel →
  concat (grid_rows fuel start c figures) = drop start figures.
Proof.
  intros Hc. unfold grid_rows. revert start.
  induction fuel as [|fuel IH]; intros start Hfuel; simpl.
  - by rewrite drop_ge by lia.
  - case_decide as Hlt; simpl.
    + rewrite IH by lia. rewrite slice_row, <- drop_drop. apply take_drop.
    + by rewrite drop_ge by lia.
Qed.

Lemma grid_rows_sizes fuel start c figures :
  0 < c →
  Forall (λ r, 1 ≤ length r ≤ c) (grid_rows fuel start c figures).
Proof.
  intros Hc. unfold grid_rows. revert start.
  induction fuel as [|fuel IH]; intros start; simpl; [done|].
  case_decide as Hlt; simpl; [|done].
  constructor; [|apply IH].
  rewrite slice_row, length_take, length_drop. lia.
Qed.

Lemma draw_row_run (cols_per_row k : nat) (figs : list figure) s :
  k + length figs ≤ cols_per_row →
  for_ (imap (λ j fig, (k + j, fig)) figs)
    (λ jfig, slot ← lift (py.index (seq 0 cols_per_row) jfig.1);
             st.pyplot (Some slot) jfig.2) s
  = (Ret (), add_elements s (imap (λ j fig, Pyplot (Some (k + j)) fig) figs)).
Proof.
  set (body := λ jfig : nat * figure,
         slot ← lift (py.index (seq 0 cols_per_row) jfig.1);
         st.pyplot (Some slot) jfig.2).
  assert (∀ j fig s, j < cols_per_row →
            body (j, fig) s = (Ret (), add_elements s [Pyplot (Some j) fig])) as Hbody.
  { intros j fig s' Hj. unfold body. rewrite bind_run. unfold lift, py.index.
    cbn [fst snd]. by rewrite lookup_seq_lt by lia. }
  clearbody body. revert k s.
  induction figs as [|fig figs IH]; intros k s Hk.
  - simpl. by rewrite add_elements_nil.
  - rewrite !imap_cons. cbn [for_ length] in *. rewrite bind_run, Hbody by lia.
    rewrite (imap_ext _ (λ j fig, (S k + j, fig)) figs)
      by (intros; simpl; f_equal; lia).
    rewrite (IH (S k)) by lia. rewrite add_elements_app. do 3 f_equal.
    apply imap_ext. intros. simpl. do 2 f_equal. lia.
Qed.

Lemma draw_rows_run fuel start c figures s :
  0 < c →
  for_ (py.range_from fuel start (length figures) c)
    (λ i, cols ← st.columns c;
          for_ (py.enumerate (py.slice figures i (i + c)))
            (λ jfig, slot ← lift (py.index cols jfig.1);
                     st.pyplot (Some slot) jfig.2)) s
  = (Ret (), add_elements s (concat (render_row c <$> grid_rows fuel start c figures))).
Proof.
  intros Hc. unfold grid_rows. revert start s.
  induction fuel as [|fuel IH]; intros start s; simpl.
  - by rewrite add_elements_nil.
  - case_decide as Hlt; simpl; [|by rewrite add_elements_nil].
    rewrite bind_run, bind_run. unfold st.columns at 1.
    rewrite bind_run, emit_run. unfold mret at 1, M_ret.
    unfold py.enumerate.
    rewrite (draw_row_run c 0); [|rewrite slice_row, length_take; simpl; lia].
    rewrite IH, !add_elements_app. done.
Qed.

Lemma charts_of_row (slot : nat → option nat) (figs : list figure) :
  charts_of (imap (λ j fig, Pyplot (slot j) fig) figs) = figs.
Proof.
  revert slot. induction figs as [|fig figs IH]; intros slot; [done|].
  rewrite imap_cons. unfold charts_of in *. simpl. f_equal.
  apply (IH (slot ∘ S)).
Qed.

Lemma charts_of_grid c (grid : list (list figure)) :
  charts_of (concat (render_row c <$> grid)) = concat grid.
Proof.
  induction grid as [|figs grid IH]; [done|]. csimpl.
  unfold charts_of in *. simpl. rewrite omap_app, IH. f_equal.
  apply (charts_of_row Some).
Qed.

(** C6. [display_figures_in_columns] lays the figures out in a grid: for
    at least one column per row, every figure is drawn once, in the order
    of the list, in rows of at most [cols_per_row] figures each, and the
    number of rows is the length of the list divided by [cols_per_row],
    rounded up; for an empty list nothing is drawn. *)
Theorem display_figures_in_columns_grid figures cols_per_row s :
  1 ≤ cols_per_row →
  ∃ grid : list (list figure),
    display_figures_in_columns figures cols_per_row s
    = (Ret (), add_elements s (concat (render_row cols_per_row <$> grid))) ∧
    charts_of (concat (render_row cols_per_row <$> grid)) = figures ∧
    concat grid = figures ∧
    Forall (λ r, 1 ≤ length r ≤ cols_per_row) grid ∧
    length grid = (length figures + cols_per_row - 1) / cols_per_row ∧
    (figures = [] → grid = []).
Proof.
  intros Hc. exists (grid_rows (length figures - 0) 0 cols_per_row figures).
  split; [|split; [|split; [|split; [|split]]]].
  - unfold display_figures_in_columns. rewrite bind_run. unfold lift, py.range.
    rewrite decide_False by lia. by apply draw_rows_run.
  - by rewrite charts_of_grid, grid_rows_concat by lia.
  - by rewrite grid_rows_concat by lia.
  - by apply grid_rows_sizes.
  - unfold grid_rows. rewrite length_fmap, range_from_length by lia.
    do 2 f_equal. lia.
  - by intros ->.
Qed.

(** What the utility draws. *)
Lemma display_run figures cols_per_row s :
  1 ≤ cols_per_row →
  display_figures_in_columns figures cols_per_row s
  = (Ret (), add_elements s (grid cols_per_row figures)).
Proof.
  intros Hc. unfold display_figures_in_columns, grid.
  rewrite bind_run. unfold lift, py.range.
  rewrite decide_False by lia. rewrite Nat.sub_0_r. by apply draw_rows_run.
Qed.

Lemma charts_of_grid_figures cols_per_row figures :
  1 ≤ cols_per_row → charts_of (grid cols_per_row figures) = figures.
Proof.
  intros Hc. unfold grid. by rewrite charts_of_grid, grid_rows_concat by lia.
Qed.

(** ** Distinct values and loops over them *)

Lemma elem_of_unique {A} `{EqDecision A} (l : list A) x :
  x ∈ pd.unique l ↔ x ∈ l.
Proof.
  induction l as [|y l IH]; simpl; [done|].
  rewrite !elem_of_cons, list_elem_of_filter, IH.
  destruct (decide (x = y)); intuition congruence.
Qed.

Lemma NoDup_unique {A} `{EqDecision A} (l : list A) : NoDup (pd.unique l).
Proof.
  induction l as [|y l IH]; simpl; constructor.
  - rewrite list_elem_of_filter. by intros [? _].
  - by apply NoDup_filter.
Qed.


Lemma collect_fmap {K K'} (f : K → K') (keys : list K)
    (body : K' → outcome (list figure)) :
  collect (f <$> keys) body = collect keys (body ∘ f).
Proof.
  induction keys as [|k keys IH]; csimpl; [done|]. by rewrite IH.
Qed.

Lemma require_ok df cols :
  Forall (λ c, c ∈ columns df) cols → pd.require df cols = Ret ().
Proof.
  intros H. unfold pd.require. by apply find_missing_None in H as ->.
Qed.

Lemma cell_eqb_true a b : cell_eqb a b = true ↔ a ≠ CNull ∧ a = b.
Proof.
  unfold cell_eqb. rewrite andb_true_iff, negb_true_iff, bool_decide_eq_true.
  destruct a; simpl; intuition congruence.
Qed.

(** ** Heatmaps by group *)








(** The rows the script selects for a phase. *)
Lemma mask_phase df phase :
  filter (λ r, cell_eqb (loc r "Phase_Cycle") phase = true) (rows df)
  = rows (group_of_phase df phase).
Proof.
  unfold group_of_phase. cbn [rows]. apply list_filter_iff. intros r.
  rewrite cell_eqb_true. split.
  - intros [? <-]. done.
  - intros [? ->]. done.
Qed.




Lemma groupby2_group df k :
  {| columns := columns df;
     rows := filter (λ r, pd.key2 "Joueuse" "Phase_Cycle" r = k)
               (pd.keyed "Joueuse" "Phase_Cycle" (rows df)) |}
  = group_of_pair df k.
Proof.
  unfold group_of_pair, pd.keyed. f_equal. rewrite list_filter_filter.
  apply list_filter_iff. intros r. unfold pd.key2.
  destruct k as [j p]; simpl. split.
  - intros [[= <- <-] [? ?]]. done.
  - intros [[? <-] [? <-]]. done.
Qed.

Lemma homogeneous_alt l :
  pd.homogeneous l ↔
  ∀ a b, a ∈ l → b ∈ l → a = CNull ∨ b = CNull ∨ kind a = kind b.
Proof.
  unfold pd.homogeneous. rewrite Forall_forall.
  split.
  - intros H a b Ha Hb. specialize (H a Ha). rewrite Forall_forall in H. by apply H.
  - intros H a Ha. apply Forall_forall. intros b Hb. by apply H.
Qed.

Lemma homogeneous_subset l l' :
  (∀ x, x ∈ l' → x ∈ l) → pd.homogeneous l → pd.homogeneous l'.
Proof. rewrite !homogeneous_alt. intros Hsub H a b Ha Hb. apply H; by apply Hsub. Qed.









(** A section that makes a list of figures and hands it to the grid. *)
Lemma figures_section_run (head1 head2 : string) (figs : outcome (list figure))
    (cols_per_row : nat) s :
  1 ≤ cols_per_row →
  (st.subheader head1;; st.expander head2;;
   figs ← lift figs; display_figures_in_columns figs cols_per_row) s
  = match figs with
    | Ret figs =>
        (Ret (), add_elements s
                   ([Subheader head1; Expander head2] ++ grid cols_per_row figs))
    | Raise e => (Raise e, add_elements s [Subheader head1; Expander head2])
    | Stop => (Stop, add_elements s [Subheader head1; Expander head2])
    end.
Proof.
  intros Hc. unfold st.subheader, st.expander.
  rewrite bind_run, emit_run, bind_run, emit_run, add_elements_app, bind_run.
  unfold lift. destruct figs as [figs|e|]; try done.
  by rewrite display_run, add_elements_app.
Qed.

Ltac known_columns :=
  repeat constructor; unfold required_columns;
  rewrite ?elem_of_cons; tauto.



Lemma loaded_has coerce s df cols :
  (load_data coerce s).1 = Ret df →
  Forall (λ c, c ∈ "Date" :: required_columns) cols →
  Forall (λ c, c ∈ columns df) cols.
Proof.
  intros Hload%loaded_columns Hcols. rewrite Forall_forall in Hload.
  eapply Forall_impl; [exact Hcols|]. intros c Hc. by apply Hload.
Qed.

Lemma loaded_has_one coerce s df c :
  (load_data coerce s).1 = Ret df → c ∈ "Date" :: required_columns →
  c ∈ columns df.
Proof.
  intros Hload Hc.
  assert (Forall (λ c, c ∈ columns df) [c]) as H
    by (apply (loaded_has coerce s); [done|constructor; [done|constructor]]).
  by apply Forall_cons_1 in H as [? _].
Qed.

Lemma loaded_required coerce s df :
  (load_data coerce s).1 = Ret df →
  Forall (λ c, c ∈ columns df) required_columns.
Proof. intros Hload%loaded_columns. by apply Forall_cons_1 in Hload as [_ ?]. Qed.



(** ** The table of section 1 *)


Lemma ct_position_elem labels x i : ct_position labels x = Some i → labels !! i = Some x.
Proof.
  unfold ct_position. destruct (list_find _ labels) as [[i' y]|] eqn:Hfind; [|done].
  intros [= <-]. by apply list_find_Some in Hfind as (Hi & -> & _).
Qed.

Lemma sum_list_fmap_add {B} (g h : B → nat) (cols : list B) :
  sum_list ((λ p, g p + h p) <$> cols)
  = sum_list (g <$> cols) + sum_list (h <$> cols).
Proof. induction cols as [|p cols IH]; csimpl; [done|]. rewrite IH. lia. Qed.

Lemma sum_list_indicator {B} `{EqDecision B} (x : B) (cols : list B) :
  NoDup cols →
  sum_list ((λ p, if decide (x = p) then 1 else 0) <$> cols)
  = if decide (x ∈ cols) then 1 else 0.
Proof.
  induction 1 as [|p cols Hp Hnodup IH]; csimpl; [done|]. rewrite IH.
  destruct (decide (x = p)) as [->|Hne].
  - rewrite decide_False by done. rewrite decide_True by left. done.
  - destruct (decide (x ∈ cols)).
    + rewrite decide_True by (by right). done.
    + rewrite decide_False; [done|]. by intros [?|?]%elem_of_cons.
Qed.

Lemma sum_list_zero {B} (g : B → nat) (cols : list B) :
  (∀ p, g p = 0) → sum_list (g <$> cols) = 0.
Proof.
  intros Hg. induction cols as [|p cols IH]; csimpl; [done|]. by rewrite Hg, IH.
Qed.

(** Counting the rows of each value of [f] and adding up counts the rows. *)
Lemma sum_counts {A B} `{EqDecision B} (f : A → B) (Q : A → Prop)
    `{∀ x, Decision (Q x)} (cols : list B) (l : list A) :
  NoDup cols → (∀ r, r ∈ l → Q r → f r ∈ cols) →
  sum_list ((λ p, length (filter (λ r, Q r ∧ f r = p) l)) <$> cols)
  = length (filter Q l).
Proof.
  intros Hnodup. induction l as [|r l IH]; intros Hcols.
  - by apply sum_list_zero.
  - rewrite (list_fmap_ext _
      (λ p, (if decide (Q r ∧ f r = p) then 1 else 0)
            + length (filter (λ r, Q r ∧ f r = p) l)) cols).
    2:{ intros _ p _. rewrite filter_cons. by destruct (decide (Q r ∧ f r = p)). }
    rewrite sum_list_fmap_add, IH by (intros; apply Hcols; [by right|done]).
    rewrite filter_cons. destruct (decide (Q r)) as [HQ|HQ].
    + rewrite (list_fmap_ext _ (λ p, if decide (f r = p) then 1 else 0) cols).
      2:{ intros _ p _. destruct (decide (f r = p)).
          - by rewrite decide_True.
          - rewrite decide_False; [done|]. by intros [_ ?]. }
      rewrite sum_list_indicator by done.
      rewrite decide_True by (apply Hcols; [by left|done]). done.
    + rewrite (list_fmap_ext _ (λ _, 0) cols).
      2:{ intros _ p _. rewrite decide_False; [done|]. by intros [? _]. }
      by rewrite sum_list_zero.
Qed.












(** ** The selector and the series of section 3 *)



Lemma Forall_filter_keep {A} (Q P : A → Prop) `{∀ x, Decision (P x)} (l : list A) :
  Forall Q l → Forall Q (filter P l).
Proof.
  rewrite !Forall_forall. intros HQ x [_ ?]%list_elem_of_filter. by apply HQ.
Qed.

Lemma StronglySorted_filter {A} (R : relation A) (P : A → Prop)
    `{∀ x, Decision (P x)} (l : list A) :
  StronglySorted R l → StronglySorted R (filter P l).
Proof.
  induction 1 as [|x l Hs IH Hx]; [constructor|].
  rewrite filter_cons. destruct (decide (P x)); [|done].
  constructor; [done|]. by apply Forall_filter_keep.
Qed.

Lemma StronglySorted_unique_values (l : list cell) :
  StronglySorted cell_le l → StronglySorted cell_le (pd.unique l).
Proof.
  induction 1 as [|x l Hs IH Hx]; simpl; constructor.
  - by apply StronglySorted_filter.
  - apply Forall_filter_keep. rewrite Forall_forall in *. intros y Hy.
    apply Hx. by apply elem_of_unique.
Qed.

Lemma loaded_players_sorted coerce s df :
  (load_data coerce s).1 = Ret df →
  StronglySorted cell_le (column df "Joueuse").
Proof.
  intros Hsorted%loaded_sorted. apply Sorted_StronglySorted; [apply _|].
  unfold column. eapply Sorted_fmap; [|exact Hsorted].
  intros r1 r2 [?%cell_lt_le|[-> _]]; [done|reflexivity].
Qed.

(** On the loaded frame, sorting the distinct players returns them in the
    order in which the frame lists them. *)
Lemma loaded_players_order coerce s df :
  (load_data coerce s).1 = Ret df →
  pd.stable_sort cell_le (pd.unique (column df "Joueuse"))
  = pd.unique (column df "Joueuse").
Proof.
  intros Hload. apply stable_sort_sorted, StronglySorted_Sorted.
  by eapply StronglySorted_unique_values, loaded_players_sorted.
Qed.

Lemma joueuses_run df :
  "Joueuse" ∈ columns df →
  pd.homogeneous (column df "Joueuse") →
  ¬ (CNull ∈ column df "Joueuse" ∧ ∃ t, CStr t ∈ column df "Joueuse") →
  joueuses df = Ret (pd.stable_sort cell_le (pd.unique (column df "Joueuse"))).
Proof.
  intros HJ Hhom Hmix.
  unfold joueuses, pd.getitem. rewrite require_ok by (by constructor). simpl.
  unfold py.sorted. rewrite decide_True; [done|]. split.
  - eapply homogeneous_subset; [|exact Hhom].
    intros x. by rewrite elem_of_unique.
  - intros [Hnull Htext]. apply Hmix. rewrite elem_of_unique in Hnull.
    split; [done|]. apply Exists_exists in Htext as (c & Hc & Hkind).
    rewrite elem_of_unique in Hc. destruct c; try done. eauto.
Qed.






Lemma bind_emit {B} e (k : unit → M B) s :
  (emit e ≫= k) s = k () (add_elements s [e]).
Proof. reflexivity. Qed.









(** * Further properties *)

(** ** More on [load_data] *)

Lemma string_length_app (s t : string) :
  String.length (s +:+ t) = String.length s + String.length t.
Proof. induction s as [|a s IH]; simpl; [done|]. by rewrite IH. Qed.

Lemma string_app_inj_r (s1 s2 t : string) : s1 +:+ t = s2 +:+ t → s1 = s2.
Proof.
  revert s2. induction s1 as [|a s1 IH]; intros [|b s2] H; simpl in *.
  - done.
  - apply (f_equal String.length) in H.
    rewrite !string_length_app in H. simpl in H. lia.
  - apply (f_equal String.length) in H.
    rewrite !string_length_app in H. simpl in H. lia.
  - change (String a (s1 +:+ t) = String b (s2 +:+ t)) in H.
    injection H as -> H. f_equal. by apply IH.
Qed.

Lemma missing_column_msg_inj c1 c2 :
  missing_column_msg c1 = missing_column_msg c2 → c1 = c2.
Proof.
  unfold missing_column_msg. intros H.
  apply (inj (String.app "La colonne '")) in H.
  by apply string_app_inj_r in H.
Qed.

Lemma cleaned_columns coerce sheet : columns (cleaned coerce sheet) = columns sheet.
Proof. reflexivity. Qed.

Lemma cleaned_dates coerce sheet r :
  r ∈ rows (cleaned coerce sheet) → ∃ t, loc r "Date" = CDate t.
Proof.
  rewrite cleaned_rows. intros (r0 & _ & Hd)%list_elem_of_omap. unfold dated in Hd.
  destruct (coerce _ (loc r0 "Date")) as [t|]; [|done]. injection Hd as <-.
  exists t. apply loc_insert.
Qed.

Lemma cleaned_dates_orderable coerce sheet :
  pd.orderable (column (cleaned coerce sheet) "Date").
Proof.
  intros [(c & Hc & Hk)%Exists_exists _]. unfold column in Hc.
  apply list_elem_of_fmap in Hc as (r & -> & [t Ht]%cleaned_dates).
  by rewrite Ht in Hk.
Qed.

Lemma sort_cleaned_Ret coerce sheet :
  "Date" ∈ columns sheet → "Joueuse" ∈ columns sheet →
  pd.orderable (column (cleaned coerce sheet) "Joueuse") →
  pd.sort_values (cleaned coerce sheet) ["Joueuse"; "Date"]
  = Ret {| columns := columns sheet;
           rows := pd.stable_sort (pd.lex_le ["Joueuse"; "Date"])
                     (rows (cleaned coerce sheet)) |}.
Proof.
  intros HD HJ Hord. rewrite sort_values_2.
  assert (list_find (λ c, c ∉ columns (cleaned coerce sheet)) ["Joueuse"; "Date"] = None)
    as -> by (apply find_missing_None; by repeat constructor).
  rewrite decide_True; [done|]. split; [done|]. apply cleaned_dates_orderable.
Qed.

Lemma sort_cleaned_KeyError coerce sheet :
  "Joueuse" ∉ columns sheet →
  pd.sort_values (cleaned coerce sheet) ["Joueuse"; "Date"] = Raise (KeyError "Joueuse").
Proof.
  intros HJ. unfold pd.sort_values. simpl. by rewrite decide_True.
Qed.

(** X1. [load_data] returns a frame exactly when the file holds a sheet
    that has Date and every required column and whose Joueuse cells, in
    the rows with a readable date, can be put in order: they do not hold
    both a number and a timestamp.  Players of a number and of a text are
    loaded. *)
Theorem load_data_returns_iff coerce s :
  (∃ df, (load_data coerce s).1 = Ret df) ↔
  ∃ sheet, files s !! xlsx = Some (Workbook sheet) ∧
           Forall (λ c, c ∈ columns sheet) ("Date" :: required_columns) ∧
           pd.orderable (column (cleaned coerce sheet) "Joueuse").
Proof.
  split.
  - intros [df (sheet & Hf & Hcols & Hhom & _)%load_data_Ret]. eauto.
  - intros (sheet & Hf & Hcols & Hhom).
    apply Forall_cons_1 in Hcols as [HD Hreq].
    assert ("Joueuse" ∈ columns sheet) as HJ
      by (by apply Forall_cons_1 in Hreq as [? _]).
    rewrite load_data_run. cbv zeta. rewrite Hf, decide_True by done.
    rewrite sort_cleaned_Ret by done. cbn [columns].
    apply find_missing_None in Hreq as ->. eauto.
Qed.

(** X2. When the sheet has Date and Joueuse and its dated rows can be
    sorted, the error box names the first column of [required_columns], in
    the order of the list, that the sheet lacks. *)
Theorem load_data_reports_first_missing coerce s sheet i c :
  files s !! xlsx = Some (Workbook sheet) →
  "Date" ∈ columns sheet → "Joueuse" ∈ columns sheet →
  pd.orderable (column (cleaned coerce sheet) "Joueuse") →
  required_columns !! i = Some c → c ∉ columns sheet →
  (∀ j c', j < i → required_columns !! j = Some c' → c' ∈ columns sheet) →
  load_data coerce s
  = (Stop, add_elements (add_opened s xlsx) [Error (missing_column_msg c)]).
Proof.
  intros Hf HD HJ Hhom Hi Hc Hbefore.
  rewrite load_data_run. cbv zeta. rewrite Hf, decide_True by done.
  rewrite sort_cleaned_Ret by done. cbn [columns].
  assert (list_find (λ c, c ∉ columns sheet) required_columns = Some (i, c)) as ->; [|done].
  apply list_find_Some. split; [done|]. split; [done|].
  intros j c' Hj Hlt Hout. apply Hout. by eapply Hbefore.
Qed.

(** X3. A sheet that has Date but not Joueuse is reported through the
    exception of the sort, as "Erreur : 'Joueuse'"; the message of the
    loop over the required columns is never shown for Joueuse. *)
Theorem load_data_missing_joueuse coerce :
  (∀ s sheet,
     files s !! xlsx = Some (Workbook sheet) →
     "Date" ∈ columns sheet → "Joueuse" ∉ columns sheet →
     load_data coerce s
     = (Stop, add_elements (add_opened s xlsx) [Error "Erreur : 'Joueuse'"])) ∧
  (∀ s, load_data coerce s
        ≠ (Stop, add_elements (add_opened s xlsx)
                   [Error (missing_column_msg "Joueuse")])).
Proof.
  split.
  - intros s sheet Hf HD HJ. rewrite load_data_run. cbv zeta.
    rewrite Hf, decide_True by done. by rewrite sort_cleaned_KeyError.
  - intros s. rewrite load_data_run. cbv zeta.
    assert (∀ (o : outcome DataFrame) m1 m2, m1 ≠ m2 →
              (o, add_elements (add_opened s xlsx) [Error m1])
              ≠ (Stop, add_elements (add_opened s xlsx) [Error m2])) as Hne.
    { intros o m1 m2 Hm [= _ Hp]. apply app_inv_head in Hp. congruence. }
    destruct (files s !! xlsx) as [[sheet|msg]|].
    + case_decide as HD; [|by apply Hne].
      destruct (pd.sort_values _ _) as [df|e|] eqn:Hsort.
      * destruct (list_find _ required_columns) as [[i c]|] eqn:Hfind; [|done].
        apply Hne. intros ->%missing_column_msg_inj.
        apply list_find_Some in Hfind as (_ & Hout & _).
        apply sort_values_Ret in Hsort as (Hby & _ & _ & Hcols & _).
        apply Forall_cons_1 in Hby as [HJ _]. rewrite Hcols in Hout. done.
      * by apply Hne.
      * intros [= Hp]. apply (f_equal length) in Hp. rewrite length_app in Hp.
        simpl in Hp. lia.
    + by apply Hne.
    + by apply Hne.
Qed.

Lemma omap_length {A B} (f : A → option B) (l : list A) :
  length (omap f l) ≤ length l ∧
  (length (omap f l) = length l ↔ Forall (λ x, is_Some (f x)) l).
Proof.
  induction l as [|x l [IHle IHeq]]; [by split|].
  rewrite Forall_cons. cbn [omap list_omap length].
  destruct (f x) as [y|]; cbn [length].
  - split; [lia|]. rewrite <- IHeq. split.
    + intros [= ?]. split; [by eexists|done].
    + intros [_ ->]. done.
  - split; [lia|]. split; [lia|]. intros [[? [=]] _].
Qed.

(** X4. [load_data] never returns more rows than the sheet has, and it
    returns as many exactly when the Date of every row is read. *)
Theorem load_data_row_count coerce s df sheet :
  (load_data coerce s).1 = Ret df →
  files s !! xlsx = Some (Workbook sheet) →
  length (rows df) ≤ length (rows sheet) ∧
  (length (rows df) = length (rows sheet) ↔
   ∀ r, r ∈ rows sheet → is_Some (coerce (column sheet "Date") (loc r "Date"))).
Proof.
  intros Hload Hf. rewrite (loaded_rows coerce s df sheet Hload Hf).
  destruct (omap_length (dated coerce sheet) (rows sheet)) as [Hle Heq].
  split; [done|]. rewrite Heq, Forall_forall.
  split; intros H r Hr; specialize (H r Hr); unfold dated in *.
  - destruct (coerce _ _); [by eexists|]. by destruct H.
  - destruct H as [t ->]. by eexists.
Qed.


Lemma StronglySorted_lookup {A} (R : relation A) (l : list A) i i' x y :
  StronglySorted R l → i < i' → l !! i = Some x → l !! i' = Some y → R x y.
Proof.
  intros Hs. revert i i'. induction Hs as [|a l Hs IH Ha]; intros i i' Hlt Hx Hy; [done|].
  destruct i' as [|i']; [lia|]. destruct i as [|i]; simpl in *.
  - injection Hx as ->. rewrite Forall_forall in Ha. apply Ha.
    by eapply list_elem_of_lookup_2.
  - apply (IH i i'); [lia|done|done].
Qed.

(** X17. In the loaded frame the players that are numbers come before the
    players that are texts, and the rows that name no player come last. *)
Theorem load_data_numbers_before_texts coerce s df i i' r r' :
  (load_data coerce s).1 = Ret df →
  i < i' → rows df !! i = Some r → rows df !! i' = Some r' →
  ((∃ x, loc r' "Joueuse" = CNum x) → ∃ y, loc r "Joueuse" = CNum y) ∧
  (loc r "Joueuse" = CNull → loc r' "Joueuse" = CNull).
Proof.
  intros Hload Hlt Hr Hr'.
  pose proof (loaded_players_sorted coerce s df Hload) as Hsorted.
  assert (cell_le (loc r "Joueuse") (loc r' "Joueuse")) as Hle.
  { apply (StronglySorted_lookup cell_le (column df "Joueuse") i i'); try done.
    - unfold column. by rewrite list_lookup_fmap, Hr.
    - unfold column. by rewrite list_lookup_fmap, Hr'. }
  split.
  - intros [x Hx]. rewrite Hx in Hle.
    destruct (loc r "Joueuse"); simpl in Hle; try lia. eauto.
  - intros Hnull. rewrite Hnull in Hle.
    destruct (loc r' "Joueuse"); simpl in Hle; try lia. done.
Qed.

(** ** More on the grid and the sections *)

Lemma placed_pyplots m (slot : nat → option nat) (figs : list figure) rest :
  placed m (imap (λ j fig, Pyplot (slot j) fig) figs ++ rest)
  = imap (λ j fig, (m, slot j, fig)) figs ++ placed m rest.
Proof.
  revert slot. induction figs as [|fig figs IH]; intros slot; [done|].
  rewrite !imap_cons. simpl. f_equal. apply (IH (slot ∘ S)).
Qed.

Lemma div_mod_block m c j :
  j < c → (m * c + j) / c = m ∧ (m * c + j) mod c = j.
Proof.
  intros Hj. split.
  - symmetry. apply (Nat.div_unique _ _ _ j); lia.
  - symmetry. apply (Nat.mod_unique _ _ m); lia.
Qed.

Lemma placed_grid fuel m c figures :
  0 < c → length figures - m * c ≤ fuel →
  placed m (concat (render_row c <$> grid_rows fuel (m * c) c figures))
  = imap (λ k fig, (S ((m * c + k) / c), Some ((m * c + k) mod c), fig))
      (drop (m * c) figures).
Proof.
  intros Hc. unfold grid_rows. revert m.
  induction fuel as [|fuel IH]; intros m Hfuel; simpl.
  - by rewrite drop_ge by lia.
  - case_decide as Hlt; [|by rewrite drop_ge by lia]. csimpl.
    rewrite slice_row. unfold render_row. simpl.
    rewrite (placed_pyplots (S m) Some).
    replace (m * c + c) with (S m * c) by lia. rewrite IH by lia.
    rewrite <- (take_drop c (drop (m * c) figures)) at 2.
    rewrite imap_app. f_equal.
    + apply imap_ext. intros j fig Hj. apply lookup_lt_Some in Hj.
      rewrite length_take in Hj.
      destruct (div_mod_block m c j) as [-> ->]; [lia|]. done.
    + rewrite drop_drop. replace (S m * c) with (m * c + c) by lia.
      destruct (decide (length figures ≤ m * c + c)) as [Hle|Hgt].
      * by rewrite !drop_ge by lia.
      * rewrite length_take, length_drop.
        apply imap_ext. intros k fig _.
        replace (m * c + (c `min` (length figures - m * c) + k))
          with (m * c + c + k) by lia.
        done.
Qed.

(** X5. For at least one column per row, [display_figures_in_columns]
    draws figure number [k] (counting from 0) in row [k / cols_per_row + 1]
    and in column [k mod cols_per_row]. *)
Theorem display_figures_placement figures cols_per_row s :
  1 ≤ cols_per_row →
  ∃ els,
    display_figures_in_columns figures cols_per_row s = (Ret (), add_elements s els) ∧
    placed 0 els
    = imap (λ k fig, (S (k / cols_per_row), Some (k mod cols_per_row), fig)) figures.
Proof.
  intros Hc. eexists. split.
  - unfold display_figures_in_columns. rewrite bind_run. unfold lift, py.range.
    rewrite decide_False by lia. by apply draw_rows_run.
  - rewrite (placed_grid _ 0) by lia. simpl. done.
Qed.

Global Instance pair_le_total : Total pd.pair_le.
Proof.
  intros [a1 b1] [a2 b2]. unfold pd.pair_le; simpl.
  destruct (cell_trichotomy a1 a2) as [?|[->|?]]; [by left; left| |by right; left].
  destruct (total cell_le b1 b2); [left|right]; by right.
Qed.

Global Instance pair_le_trans : Transitive pd.pair_le.
Proof.
  intros [a1 b1] [a2 b2] [a3 b3]. unfold pd.pair_le; simpl.
  intros [H12|[-> H12]] [H23|[-> H23]].
  - left. by eapply cell_lt_trans.
  - by left.
  - by left.
  - right. split; [done|]. by etransitivity.
Qed.



Lemma sum_list_at_least {B} (g : B → nat) (n : nat) (keys : list B) :
  (∀ k, k ∈ keys → n ≤ g k) → n * length keys ≤ sum_list (g <$> keys).
Proof.
  induction keys as [|k keys IH]; intros Hg; csimpl; [lia|].
  assert (n ≤ g k) as Hk by (apply Hg; by left).
  assert (n * length keys ≤ sum_list (g <$> keys)) by (apply IH; intros; apply Hg; by right).
  lia.
Qed.

Lemma large_groups_bound {K} `{EqDecision K} (f : row → K) (ok : row → Prop)
    `{∀ r, Decision (ok r)} (keys : list K) (l : list row) :
  NoDup keys →
  (∀ k, k ∈ keys → 2 ≤ length (filter (λ r, ok r ∧ f r = k) l)) →
  2 * length keys ≤ length l.
Proof.
  intros Hnodup Hbig.
  pose proof (sum_counts f (λ r, ok r ∧ f r ∈ keys) keys l Hnodup) as Hsum.
  rewrite (list_fmap_ext _ (λ k, length (filter (λ r, ok r ∧ f r = k) l)) keys) in Hsum.
  2:{ intros i k Hk. f_equal. apply list_filter_iff. intros r.
      apply list_elem_of_lookup_2 in Hk. split; [by intros [[? _] ?]|].
      intros [? ->]. done. }
  etransitivity;
    [by apply (sum_list_at_least
                 (λ k, length (filter (λ r, ok r ∧ f r = k) l)) 2)|].
  rewrite Hsum by (by intros r _ [_ ?]). apply length_filter.
Qed.

Lemma heatmap_if_many_length group vars title figs :
  heatmap_if_many group vars title = Ret figs →
  length figs ≤ if decide (2 ≤ pd.len group) then 1 else 0.
Proof.
  unfold heatmap_if_many. destruct (decide (1 < pd.len group)) as [Hbig|Hsmall].
  - rewrite decide_True by lia.
    destruct (pd.select group vars) as [sel| |]; simpl; [|done|done].
    destruct (pd.corr sel); simpl; [|done|done]. by intros [= <-].
  - intros [= <-]. simpl. lia.
Qed.

Lemma collect_bound {K} (keys : list K) (body : K → outcome (list figure))
    (big : K → Prop) `{∀ k, Decision (big k)} figs :
  (∀ k r, body k = Ret r → length r ≤ if decide (big k) then 1 else 0) →
  collect keys body = Ret figs → length figs ≤ length (filter big keys).
Proof.
  intros Hbody. revert figs.
  induction keys as [|k keys IH]; intros figs; simpl; [by intros [= <-]|].
  destruct (body k) as [r| |] eqn:Hk; simpl; [|done|done].
  destruct (collect keys body) as [rest| |]; simpl; [|done|done].
  intros [= <-]. rewrite length_app, filter_cons.
  specialize (Hbody k r Hk). specialize (IH rest eq_refl).
  destruct (decide (big k)); simpl; lia.
Qed.

Lemma large_phases_bound df : 2 * length (large_phases df) ≤ pd.len df.
Proof.
  apply (large_groups_bound (λ r : row, loc r "Phase_Cycle")
           (λ r, loc r "Phase_Cycle" ≠ CNull)).
  - apply NoDup_filter, NoDup_unique.
  - intros k [Hbig _]%list_elem_of_filter. unfold pd.len, group_of_phase in Hbig.
    cbn [rows] in Hbig.
    rewrite (list_filter_iff _ (λ r, k ≠ CNull ∧ loc r "Phase_Cycle" = k)); [done|].
    intros r. split; [intros [? <-]; done|intros [? ->]; done].
Qed.

Lemma large_pairs_bound df : 2 * length (large_pairs df) ≤ pd.len df.
Proof.
  apply (large_groups_bound (pd.key2 "Joueuse" "Phase_Cycle")
           (λ r, loc r "Joueuse" ≠ CNull ∧ loc r "Phase_Cycle" ≠ CNull)).
  - apply NoDup_filter. rewrite stable_sort_Permutation. apply NoDup_unique.
  - intros k [Hbig _]%list_elem_of_filter.
    rewrite <- groupby2_group in Hbig. unfold pd.len, pd.keyed in Hbig.
    cbn [rows] in Hbig. rewrite list_filter_filter in Hbig.
    rewrite (list_filter_iff _
               (λ r, pd.key2 "Joueuse" "Phase_Cycle" r = k ∧
                     loc r "Joueuse" ≠ CNull ∧ loc r "Phase_Cycle" ≠ CNull));
      [done|]. intros r. tauto.
Qed.

Lemma phase_loop_length df vars (title : cell → list part) figs :
  (phases ← pd.getitem df "Phase_Cycle";
   collect (pd.unique phases) (λ phase,
     group ← pd.mask_eq df "Phase_Cycle" phase;
     heatmap_if_many group vars (title phase))) = Ret figs →
  2 * length figs ≤ pd.len df.
Proof.
  unfold pd.getitem. destruct (pd.require df ["Phase_Cycle"]) eqn:Hreq;
    simpl; [|done|done].
  intros Hfigs. pose proof (large_phases_bound df) as Hbound.
  assert (length figs ≤ length (large_phases df)); [|lia]. unfold large_phases.
  apply (collect_bound _ _ (λ phase, 2 ≤ pd.len (group_of_phase df phase)) figs)
    in Hfigs; [done|].
  intros phase r. unfold pd.mask_eq. rewrite Hreq. simpl.
  rewrite mask_phase. intros Hr%heatmap_if_many_length. done.
Qed.

Lemma pair_loop_length df vars (title : cell * cell → list part) figs :
  (grouped ← pd.groupby2 df "Joueuse" "Phase_Cycle";
   collect grouped (λ kg, heatmap_if_many kg.2 vars (title kg.1))) = Ret figs →
  2 * length figs ≤ pd.len df.
Proof.
  unfold pd.groupby2. destruct (pd.require df _); simpl; [|done|done].
  case_decide; [|done]. simpl. rewrite collect_fmap.
  intros Hfigs. pose proof (large_pairs_bound df) as Hbound.
  assert (length figs ≤ length (large_pairs df)); [|lia]. unfold large_pairs.
  apply (collect_bound _ _ (λ k, 2 ≤ pd.len (group_of_pair df k)) figs)
    in Hfigs; [done|].
  intros k r. simpl. rewrite groupby2_group. apply heatmap_if_many_length.
Qed.

Lemma figures_section_bound (head1 head2 : string) (figs : outcome (list figure))
    (cols_per_row : nat) df s :
  1 ≤ cols_per_row →
  (∀ l, figs = Ret l → 2 * length l ≤ pd.len df) →
  ∃ els,
    ((st.subheader head1;; st.expander head2;;
      figs ← lift figs; display_figures_in_columns figs cols_per_row) s).2
    = add_elements s els ∧
    2 * length (charts_of els) ≤ pd.len df.
Proof.
  intros Hc Hfigs. rewrite figures_section_run by done.
  destruct figs as [l|e|]; eexists; (split; [done|]).
  - change (charts_of ([Subheader head1; Expander head2] ++ grid cols_per_row l))
      with (charts_of (grid cols_per_row l)).
    rewrite charts_of_grid_figures by done. by apply Hfigs.
  - simpl. lia.
  - simpl. lia.
Qed.

(** X8. Whatever the frame holds, each of the four sections that loop over
    groups draws at most half as many figures as the frame has rows. *)
Theorem heatmaps_at_most_half_the_rows df s section :
  section ∈ [section_2_2; section_2_3; section_4_2; section_4_3] →
  ∃ els,
    (section df s).2 = add_elements s els ∧
    2 * length (charts_of els) ≤ pd.len df.
Proof.
  intros Hin.
  repeat (apply elem_of_cons in Hin as [->|Hin]); [| | | |by apply elem_of_nil in Hin].
  - apply figures_section_bound; [lia|].
    apply (phase_loop_length df _ (λ phase, [Lit "Corrélation - "; Val phase])).
  - apply figures_section_bound; [lia|].
    apply (pair_loop_length df _ (λ k, [Val k.1; Lit " - "; Val k.2])).
  - apply figures_section_bound; [lia|].
    apply (phase_loop_length df _
             (λ phase, [Val phase; Lit " - Symptômes/Performance"])).
  - apply figures_section_bound; [lia|].
    apply (pair_loop_length df _ (λ k, [Val k.1; Lit " - "; Val k.2])).
Qed.


Lemma StronglySorted_weaken_on {A} (R R' : relation A) (l : list A) :
  (∀ x y, x ∈ l → y ∈ l → R x y → R' x y) →
  StronglySorted R l → StronglySorted R' l.
Proof.
  intros HR Hs. induction Hs as [|x l Hs IH Hx]; constructor.
  - apply IH. intros y z Hy Hz. apply HR; by right.
  - rewrite Forall_forall in *. intros y Hy. apply HR; [by left|by right|by apply Hx].
Qed.

(** X10. In the loaded frame the rows of a player already stand in the
    order of their dates, and so do the rows that name no player. *)
Theorem player_rows_already_in_date_order coerce s df j :
  (load_data coerce s).1 = Ret df →
  Sorted date_le (filter (λ r, loc r "Joueuse" = j) (rows df)).
Proof.
  intros Hsorted%loaded_sorted. apply StronglySorted_Sorted.
  apply (StronglySorted_weaken_on (pd.lex_le ["Joueuse"; "Date"])).
  - intros r1 r2 [H1 _]%list_elem_of_filter [H2 _]%list_elem_of_filter Hle.
    unfold date_le. simpl in Hle. rewrite H1, H2 in Hle.
    destruct Hle as [Hlt|[_ [Hlt|[-> _]]]].
    + by destruct (cell_lt_irrefl _ Hlt).
    + by apply cell_lt_le.
    + reflexivity.
  - apply StronglySorted_filter, Sorted_StronglySorted; [apply _|done].
Qed.

(** X11. When the players of the loaded frame are of one type and the
    Joueuse column does not hold both a text and an empty cell, the
    options of the player selector are the distinct players in the order
    in which the loaded frame lists them. *)
Theorem joueuses_in_frame_order coerce s df :
  (load_data coerce s).1 = Ret df →
  pd.homogeneous (column df "Joueuse") →
  ¬ (CNull ∈ column df "Joueuse" ∧ ∃ t, CStr t ∈ column df "Joueuse") →
  joueuses df = Ret (pd.unique (column df "Joueuse")).
Proof.
  intros Hload Hhom Hmix.
  assert ("Joueuse" ∈ columns df) as HJ
    by (apply (loaded_has_one coerce s); [done|known_columns]).
  rewrite (joueuses_run df HJ Hhom Hmix).
  by rewrite (loaded_players_order coerce s df Hload).
Qed.



(** X18. When two rows that have a phase name a number and a text as their
    players, section 1 draws its heading and then fails: the table of
    counts is not built, and no chart is drawn. *)
Theorem section_1_fails_on_mixed_players df s r1 r2 x t :
  "Joueuse" ∈ columns df → "Phase_Cycle" ∈ columns df →
  r1 ∈ rows df → r2 ∈ rows df →
  loc r1 "Joueuse" = CNum x → loc r1 "Phase_Cycle" ≠ CNull →
  loc r2 "Joueuse" = CStr t → loc r2 "Phase_Cycle" ≠ CNull →
  ∃ e,
    section_1 df s
    = (Raise e, add_elements s [Header "1. 🌸 Phases du Cycle par Joueuse"; Container]).
Proof.
  intros HJ HP Hr1 Hr2 H1J H1P H2J H2P.
  unfold section_1, st.header, st.container.
  rewrite bind_run, emit_run, bind_run, emit_run, add_elements_app.
  rewrite bind_run. unfold lift at 1.
  unfold phases_par_joueuse, pd.groupby_value_counts.
  rewrite require_ok by (by repeat constructor). simpl.
  rewrite decide_False; [by eexists|].
  rewrite homogeneous_alt. intros Hhom.
  destruct (Hhom (CNum x) (CStr t)) as [?|[?|?]]; try done.
  - apply list_elem_of_fmap. exists r1. split; [done|].
    apply list_elem_of_filter. split; [|done]. split; [|done]. by rewrite H1J.
  - apply list_elem_of_fmap. exists r2. split; [done|].
    apply list_elem_of_filter. split; [|done]. split; [|done]. by rewrite H2J.
Qed.

(** ** The page of a run *)

Lemma quiet_ret {A} (a : A) : quiet (mret a).
Proof. intros s. exists (Ret a), []. by rewrite add_elements_nil. Qed.

Lemma quiet_lift {A} (o : outcome A) : o ≠ Stop → quiet (lift o).
Proof. intros Ho s. exists o, []. by rewrite add_elements_nil. Qed.

Lemma quiet_emit e : plain e → quiet (emit e).
Proof. intros He s. exists (Ret ()), [e]. repeat split; [done|]. by constructor. Qed.

Lemma quiet_get_widgets : quiet get_widgets.
Proof. intros s. exists (Ret (widgets s)), []. by rewrite add_elements_nil. Qed.

Lemma quiet_bind {A B} (m : M A) (f : A → M B) :
  quiet m → (∀ a, quiet (f a)) → quiet (m ≫= f).
Proof.
  intros Hm Hf s. destruct (Hm s) as (o & els & Ho & Hns & Hels).
  rewrite bind_run, Ho. destruct o as [a|e|]; [| |done].
  - destruct (Hf a (add_elements s els)) as (o' & els' & -> & ? & ?).
    exists o', (els ++ els'). rewrite add_elements_app.
    repeat split; [done|]. by apply Forall_app.
  - by exists (Raise e), els.
Qed.

Lemma quiet_for {A} (l : list A) (body : A → M unit) :
  (∀ x, quiet (body x)) → quiet (for_ l body).
Proof.
  intros Hb. induction l as [|x l IH]; simpl.
  - apply quiet_ret.
  - apply quiet_bind; [apply Hb|]. intros _. apply IH.
Qed.

Lemma bind_not_stop {A B} (m : outcome A) (f : A → outcome B) :
  m ≠ Stop → (∀ a, f a ≠ Stop) → m ≫= f ≠ Stop.
Proof. intros Hm Hf. destruct m; [apply Hf|done|done]. Qed.

Lemma collect_not_stop {A} (l : list A) (body : A → outcome (list figure)) :
  (∀ x, body x ≠ Stop) → collect l body ≠ Stop.
Proof.
  intros Hb. induction l as [|x l IH]; simpl; [done|].
  apply bind_not_stop; [apply Hb|]. intros figs.
  apply bind_not_stop; [apply IH|]. done.
Qed.

Lemma to_floats_not_stop l : pd.to_floats l ≠ Stop.
Proof.
  induction l as [|c l IH]; simpl; [done|].
  apply bind_not_stop; [by destruct c|done].
Qed.

Lemma corr_not_stop df : pd.corr df ≠ Stop.
Proof. unfold pd.corr. apply bind_not_stop; [apply to_floats_not_stop|done]. Qed.

(** The data-frame calls, the builtins and the loops over groups return or
    raise; none of them stops the script. *)
Ltac not_stop :=
  repeat first
    [ done
    | apply corr_not_stop
    | apply bind_not_stop; [|intros ?]
    | apply collect_not_stop; intros ?
    | progress (unfold phases_par_joueuse, pd.groupby_value_counts, pd.groupby2,
                 pd.require, pd.select, pd.getitem, pd.mask_eq, pd.sort_values,
                 plt.plot_bar, plt.lineplot, heatmap_if_many, phase_figures, fig_list,
                 figs_4_2, figs_4_3, joueuses, df_j, py.sorted, py.range, py.index)
    | match goal with
      | |- context [decide ?P] => destruct (decide P)
      | |- context [match ?x with _ => _ end] => destruct x
      end ].

Ltac quiet_tac :=
  repeat first
    [ progress (unfold st.title, st.markdown, st.header, st.subheader,
         st.container, st.expander, st.pyplot, st.sidebar_header,
         st.sidebar_checkbox, st.selectbox, st.columns)
    | apply quiet_ret | apply quiet_get_widgets
    | apply quiet_emit; exact I
    | apply quiet_lift; not_stop
    | apply quiet_for; intros ?
    | apply quiet_bind; [|intros ?]
    | match goal with
      | |- quiet (match ?x with _ => _ end) => destruct x
      end ].

Lemma quiet_display figures cols_per_row :
  quiet (display_figures_in_columns figures cols_per_row).
Proof. unfold display_figures_in_columns. quiet_tac. Qed.

Lemma quiet_sections df :
  quiet (section_1 df;; section_2_1 df;; section_2_2 df;; section_2_3 df;;
         section_3 df;; section_4_1 df;; section_4_2 df;; section_4_3 df;;
         st.markdown "---").
Proof.
  unfold section_1, section_2_1, section_2_2, section_2_3, section_3,
    section_4_1, section_4_2, section_4_3.
  quiet_tac; apply quiet_display.
Qed.

Lemma report_run df s :
  ∃ o els,
    report df s
    = (o, add_elements s
            ([SidebarHeader "⚙️ Options de l'Application";
              SidebarCheckbox "Afficher les données brutes"] ++
             (if checkbox_value (widgets s) "Afficher les données brutes"
              then [Subheader "📋 Données Brutes"; Dataframe df] else []) ++
             els)) ∧
    o ≠ Stop ∧ Forall plain els.
Proof.
  unfold report, st.sidebar_header, st.sidebar_checkbox.
  rewrite bind_emit, bind_run, bind_emit, !add_elements_app.
  unfold get_widgets at 1. rewrite bind_run. cbn [widgets add_elements].
  unfold mret at 1, M_ret at 1. rewrite bind_run.
  destruct (checkbox_value (widgets s) "Afficher les données brutes").
  - unfold st.subheader, st.dataframe. rewrite bind_emit, emit_run, add_elements_app.
    match goal with
    | |- ∃ o els, ?m ?st = _ ∧ _ =>
        destruct (quiet_sections df st) as (o & els & Hrun & Hns & Hels)
    end.
    exists o, els. rewrite Hrun. split; [|done].
    rewrite !add_elements_app. by rewrite <- ?app_assoc.
  - unfold mret at 1, M_ret at 1.
    match goal with
    | |- ∃ o els, ?m ?st = _ ∧ _ =>
        destruct (quiet_sections df st) as (o & els & Hrun & Hns & Hels)
    end.
    exists o, els. rewrite Hrun. split; [|done].
    rewrite !add_elements_app. by rewrite <- ?app_assoc.
Qed.

Lemma script_cases coerce fs w :
  (∃ df o els,
     load_data coerce (start fs w) = (Ret df, add_opened (start fs w) xlsx) ∧
     (script coerce (start fs w)).1 = o ∧ o ≠ Stop ∧
     page (script coerce (start fs w)).2
     = prelude ++
       [SidebarHeader "⚙️ Options de l'Application";
        SidebarCheckbox "Afficher les données brutes"] ++
       (if checkbox_value w "Afficher les données brutes"
        then [Subheader "📋 Données Brutes"; Dataframe df] else []) ++
       els ∧
     Forall plain els) ∨
  (∃ msg,
     load_data coerce (start fs w)
     = (Stop, add_elements (add_opened (start fs w) xlsx) [Error msg]) ∧
     (script coerce (start fs w)).1 = Stop ∧
     page (script coerce (start fs w)).2 = prelude ++ [Error msg]).
Proof.
  destruct (load_data_factors coerce) as [F HF].
  rewrite script_run, (HF (add_elements (start fs w) prelude)).
  cbn [files add_elements start].
  destruct (load_data_halts coerce (start fs w)) as [[df Hok]|[msg Hko]].
  - left. pose proof Hok as Hok'. rewrite HF in Hok'. cbn [files start] in Hok'.
    injection Hok' as Ho Hels. simpl in Hels. rewrite Ho, Hels.
    destruct (report_run df
                (add_elements (add_opened (add_elements (start fs w) prelude) xlsx) []))
      as (o & els & Hrun & Hns & Hels').
    exists df, o, els. rewrite Hrun. by repeat split.
  - right. pose proof Hko as Hko'. rewrite HF in Hko'. cbn [files start] in Hko'.
    injection Hko' as Ho Hels. simpl in Hels. rewrite Ho, Hels.
    exists msg. by repeat split.
Qed.

Lemma plain_not_error els msg : Forall plain els → Error msg ∉ els.
Proof. rewrite Forall_forall. intros H Hin. by apply H in Hin. Qed.

Lemma plain_not_table els d : Forall plain els → Dataframe d ∉ els.
Proof. rewrite Forall_forall. intros H Hin. by apply H in Hin. Qed.

Lemma plain_not_exception els e : Forall plain els → ExceptionBox e ∉ els.
Proof. rewrite Forall_forall. intros H Hin. by apply H in Hin. Qed.

Lemma dashboard_run coerce s :
  dashboard coerce s =
  match script coerce s with
  | (Raise e, s') => (Raise e, add_elements s' [ExceptionBox e])
  | r => r
  end.
Proof. unfold dashboard, st.run. by destruct (script coerce s) as [[| |] ?]. Qed.

(** X13. A run of the dashboard ends by [st.stop()] exactly when
    [load_data] stopped; an error box of [st.error] is on the page exactly
    when it is the one [load_data] showed; and the box of an uncaught
    exception is on the page exactly when the run ended by that exception,
    which happens only after [load_data] has returned, and then the box is
    the last thing on the page. *)
Theorem dashboard_stops_iff_load_fails coerce fs w :
  ((dashboard coerce (start fs w)).1 = Stop ↔
   (load_data coerce (start fs w)).1 = Stop) ∧
  (∀ msg, Error msg ∈ page (dashboard coerce (start fs w)).2 ↔
          load_data coerce (start fs w)
          = (Stop, add_elements (add_opened (start fs w) xlsx) [Error msg])) ∧
  (∀ e, ExceptionBox e ∈ page (dashboard coerce (start fs w)).2 ↔
        (dashboard coerce (start fs w)).1 = Raise e) ∧
  (∀ e, (dashboard coerce (start fs w)).1 = Raise e →
        (∃ df, (load_data coerce (start fs w)).1 = Ret df) ∧
        last (page (dashboard coerce (start fs w)).2) = Some (ExceptionBox e)).
Proof.
  rewrite dashboard_run.
  destruct (script_cases coerce fs w)
    as [(df & o & els & Hload & Ho & Hns & Hpage & Hels)|(msg & Hload & Ho & Hpage)].
  - destruct (script coerce (start fs w)) as [o' s'] eqn:Hscript.
    cbn [fst snd] in Ho, Hpage. subst o'.
    assert (∀ msg, Error msg ∉ page s') as Hnoerr.
    { intros msg Hin. rewrite Hpage in Hin.
      apply (plain_not_error _ msg) in Hels. unfold prelude in Hin.
      destruct (checkbox_value w _);
        repeat (apply elem_of_app in Hin as [Hin|Hin]);
        repeat (apply elem_of_cons in Hin as [[=]|Hin]);
        try (by apply elem_of_nil in Hin); done. }
    assert (∀ e, ExceptionBox e ∉ page s') as Hnobox.
    { intros e Hin. rewrite Hpage in Hin.
      apply (plain_not_exception _ e) in Hels. unfold prelude in Hin.
      destruct (checkbox_value w _);
        repeat (apply elem_of_app in Hin as [Hin|Hin]);
        repeat (apply elem_of_cons in Hin as [[=]|Hin]);
        try (by apply elem_of_nil in Hin); done. }
    rewrite Hload. cbn [fst].
    destruct o as [[]|e|]; [| |done]; cbn [fst snd page add_elements].
    + split_and!.
      * split; intros [=].
      * intros msg. split; [intros Hin; by destruct (Hnoerr _ Hin)|intros [=]].
      * intros e. split; [intros Hin; by destruct (Hnobox _ Hin)|intros [=]].
      * intros e [=].
    + split_and!.
      * split; intros [=].
      * intros msg. split; [|intros [=]].
        intros [Hin|Hin]%elem_of_app; [by destruct (Hnoerr _ Hin)|].
        by apply list_elem_of_singleton in Hin.
      * intros e'. split.
        -- intros [Hin|Hin]%elem_of_app; [by destruct (Hnobox _ Hin)|].
           by apply list_elem_of_singleton in Hin as [= ->].
        -- intros [= ->]. apply elem_of_app. right. by left.
      * intros e' [= ->]. split; [by exists df|]. apply last_snoc.
  - destruct (script coerce (start fs w)) as [o' s'] eqn:Hscript.
    cbn [fst snd] in Ho, Hpage. subst o'. rewrite Hload. cbn [fst snd].
    split_and!.
    + done.
    + intros msg'. rewrite Hpage. unfold prelude. split.
      * intros Hin.
        apply elem_of_app in Hin as [Hin|Hin];
          repeat (apply elem_of_cons in Hin as [Heq|Hin]; [try discriminate|]);
          try (by apply elem_of_nil in Hin).
        by injection Heq as ->.
      * intros [= ->]. apply elem_of_app. right. by left.
    + intros e. rewrite Hpage. unfold prelude. split; [|intros [=]].
      intros Hin.
      apply elem_of_app in Hin as [Hin|Hin];
        repeat (apply elem_of_cons in Hin as [Heq|Hin]; [try discriminate|]);
        by apply elem_of_nil in Hin.
    + intros e [=].
Qed.

(** X14. The table of raw data is on the page exactly when the box is
    checked and [load_data] returned, and it shows the loaded frame. *)
Theorem raw_data_shown_iff_checked coerce fs w d :
  Dataframe d ∈ page (script coerce (start fs w)).2 ↔
  checkbox_value w "Afficher les données brutes" = true ∧
  (load_data coerce (start fs w)).1 = Ret d.
Proof.
  destruct (script_cases coerce fs w)
    as [(df & o & els & Hload & Ho & Hns & Hpage & Hels)|(msg & Hload & Ho & Hpage)].
  - rewrite Hload, Hpage. apply (plain_not_table _ d) in Hels. unfold prelude.
    destruct (checkbox_value w _); split.
    + intros Hin.
      repeat (apply elem_of_app in Hin as [Hin|Hin]);
      repeat (apply elem_of_cons in Hin as [Heq|Hin]; [try discriminate|]);
      try (by apply elem_of_nil in Hin); try done.
      by injection Heq as ->.
    + intros [_ [= ->]]. apply elem_of_app. right. apply elem_of_app. right.
      apply elem_of_app. left. right. by left.
    + intros Hin.
      repeat (apply elem_of_app in Hin as [Hin|Hin]);
      repeat (apply elem_of_cons in Hin as [Heq|Hin]; [try discriminate|]);
      try (by apply elem_of_nil in Hin); done.
    + by intros [? _].
  - rewrite Hload, Hpage. unfold prelude. split; [|by intros [_ ?]].
    intros Hin.
    apply elem_of_app in Hin as [Hin|Hin];
      repeat (apply elem_of_cons in Hin as [Heq|Hin]; [try discriminate|]);
      by apply elem_of_nil in Hin.
Qed.













(** * Sample runs *)

Ltac by_compute :=
  match goal with |- ?P => apply (bool_decide_unpack P); vm_compute; exact I end.

Example sample_load :
  load_data sample_coerce sample_state
  = (Ret sample_loaded, add_opened sample_state xlsx).
Proof. vm_compute. reflexivity. Qed.

(** Players of a number and of a text are loaded, the number first, the
    row that names no player last. *)
Example sample_load_mixed :
  load_data sample_coerce sample_state_mixed
  = (Ret sample_loaded_mixed, add_opened sample_state_mixed xlsx).
Proof. vm_compute. reflexivity. Qed.

Example sample_load_text :
  load_data sample_coerce sample_state_text
  = (Ret sample_sheet_text, add_opened sample_state_text xlsx).
Proof. vm_compute. reflexivity. Qed.

Example sample_load_missing_file :
  load_data sample_coerce (start ∅ sample_widgets)
  = (Stop, add_elements (add_opened (start ∅ sample_widgets) xlsx)
             [Error "Le fichier Excel n'a pas été trouvé."]).
Proof. vm_compute. reflexivity. Qed.

Example sample_load_missing_column :
  load_data sample_coerce
    (start {[ xlsx := Workbook {| columns := ["Joueuse"; "Date"]; rows := [] |} ]}
       sample_widgets)
  = (Stop,
     add_elements
       (add_opened
          (start {[ xlsx := Workbook {| columns := ["Joueuse"; "Date"]; rows := [] |} ]}
             sample_widgets) xlsx)
       [Error "La colonne 'Phase_Cycle' est manquante."]).
Proof. vm_compute. reflexivity. Qed.

Example sample_script_missing_file :
  script sample_coerce (start ∅ sample_widgets)
  = (Stop,
     {| files := ∅; opened := [xlsx]; widgets := sample_widgets;
        page := prelude ++ [Error "Le fichier Excel n'a pas été trouvé."] |}).
Proof. vm_compute. reflexivity. Qed.


(** With a number and a text as players the table of counts is not
    built. *)
Example sample_table_mixed :
  phases_par_joueuse sample_loaded_mixed
  = Raise (TypeError "'<' not supported between instances of 'str' and 'int'").
Proof. vm_compute. reflexivity. Qed.

Example sample_dashboard_mixed :
  (dashboard sample_coerce sample_state_mixed).1
  = Raise (TypeError "'<' not supported between instances of 'str' and 'int'") ∧
  page (dashboard sample_coerce sample_state_mixed).2
  = prelude ++
    [SidebarHeader "⚙️ Options de l'Application";
     SidebarCheckbox "Afficher les données brutes";
     Header "1. 🌸 Phases du Cycle par Joueuse"; Container;
     ExceptionBox
       (TypeError "'<' not supported between instances of 'str' and 'int'")].
Proof. split; vm_compute; reflexivity. Qed.


Example sample_unnamed_load :
  (load_data sample_coerce sample_state_unnamed).1 = Ret sample_sheet_unnamed.
Proof. vm_compute. reflexivity. Qed.


Example sample_unnamed_dashboard :
  (dashboard sample_coerce sample_state_unnamed).1
  = Raise (TypeError "'<' not supported between instances of 'float' and 'str'").
Proof. vm_compute. reflexivity. Qed.

(** * The properties on the samples *)

Lemma load_data_drops_undated_witness :
  (load_data sample_coerce sample_state_mixed).1 = Ret sample_loaded_mixed ∧
  files sample_state_mixed !! xlsx = Some (Workbook sample_sheet_mixed) ∧
  (∀ r, r ∈ rows sample_loaded_mixed → ∃ t, loc r "Date" = CDate t) ∧
  rows sample_loaded_mixed
  ≡ₚ omap (dated sample_coerce sample_sheet_mixed) (rows sample_sheet_mixed).
Proof.
  assert ((load_data sample_coerce sample_state_mixed).1 = Ret sample_loaded_mixed)
    as Hload by (vm_compute; reflexivity).
  assert (files sample_state_mixed !! xlsx = Some (Workbook sample_sheet_mixed))
    as Hfile by (vm_compute; reflexivity).
  split; [exact Hload|]. split; [exact Hfile|].
  destruct (load_data_drops_undated _ _ _ _ Hload Hfile) as (Hdated & _ & Hperm).
  split; [exact Hdated|exact Hperm].
Defined.

Lemma load_data_sorted_witness :
  (load_data sample_coerce sample_state_mixed).1 = Ret sample_loaded_mixed ∧
  rows sample_loaded_mixed !! 1
    = Some (sample_row (CNum (Qc_of_Z 7)) (CDate 9) (CStr "Folliculaire")) ∧
  rows sample_loaded_mixed !! 2
    = Some (sample_row (CStr "A") (CDate 4) (CStr "Luteale")) ∧
  (cell_lt (loc (sample_row (CNum (Qc_of_Z 7)) (CDate 9) (CStr "Folliculaire"))
              "Joueuse")
           (loc (sample_row (CStr "A") (CDate 4) (CStr "Luteale")) "Joueuse") ∨
   loc (sample_row (CNum (Qc_of_Z 7)) (CDate 9) (CStr "Folliculaire")) "Joueuse"
   = loc (sample_row (CStr "A") (CDate 4) (CStr "Luteale")) "Joueuse").
Proof.
  assert ((load_data sample_coerce sample_state_mixed).1 = Ret sample_loaded_mixed)
    as Hload by (vm_compute; reflexivity).
  assert (rows sample_loaded_mixed !! 1
          = Some (sample_row (CNum (Qc_of_Z 7)) (CDate 9) (CStr "Folliculaire")))
    as H1 by reflexivity.
  assert (rows sample_loaded_mixed !! 2
          = Some (sample_row (CStr "A") (CDate 4) (CStr "Luteale")))
    as H2 by reflexivity.
  split; [exact Hload|]. split; [exact H1|]. split; [exact H2|].
  exact (proj1 (load_data_sorted _ _ _ 1 _ _ Hload H1 H2)).
Defined.

Lemma display_figures_in_columns_grid_witness :
  1 ≤ 2 ∧
  ∃ grid : list (list figure),
    display_figures_in_columns
      [sample_figure "a"; sample_figure "b"; sample_figure "c"] 2 sample_state
    = (Ret (), add_elements sample_state (concat (render_row 2 <$> grid))) ∧
    length grid = 2.
Proof.
  split; [lia|].
  destruct (display_figures_in_columns_grid
              [sample_figure "a"; sample_figure "b"; sample_figure "c"] 2 sample_state)
    as (grid & Hrun & _ & _ & _ & Hrows & _); [lia|].
  exists grid. split; [exact Hrun|exact Hrows].
Defined.







(** * The further properties on the samples *)

Lemma load_data_reports_first_missing_witness :
  files sample_state_short !! xlsx = Some (Workbook sample_sheet_short) ∧
  pd.orderable (column (cleaned sample_coerce sample_sheet_short) "Joueuse") ∧
  (required_columns !! 4 = Some "Sprints") ∧
  ("Sprints" ∉ columns sample_sheet_short) ∧
  rows sample_sheet_short ≠ [] ∧
  load_data sample_coerce sample_state_short
  = (Stop, add_elements (add_opened sample_state_short xlsx)
             [Error (missing_column_msg "Sprints")]).
Proof.
  assert (files sample_state_short !! xlsx = Some (Workbook sample_sheet_short))
    as Hfile by (vm_compute; reflexivity).
  assert ("Date" ∈ columns sample_sheet_short) as HD by (by_compute).
  assert ("Joueuse" ∈ columns sample_sheet_short) as HJ by (by_compute).
  assert (pd.orderable (column (cleaned sample_coerce sample_sheet_short) "Joueuse"))
    as Hord by (by_compute).
  assert ("Sprints" ∉ columns sample_sheet_short) as Hout by (by_compute).
  assert (∀ j c', j < 4 → required_columns !! j = Some c' →
                  c' ∈ columns sample_sheet_short) as Hbefore.
  { intros j c' Hj Hc.
    do 4 (destruct j as [|j]; [injection Hc as <-; by_compute|]).
    lia. }
  split; [exact Hfile|]. split; [exact Hord|]. split; [reflexivity|].
  split; [exact Hout|]. split; [discriminate|].
  exact (load_data_reports_first_missing _ _ _ 4 "Sprints"
           Hfile HD HJ Hord eq_refl Hout Hbefore).
Defined.

Lemma load_data_row_count_witness :
  (load_data sample_coerce sample_state_mixed).1 = Ret sample_loaded_mixed ∧
  files sample_state_mixed !! xlsx = Some (Workbook sample_sheet_mixed) ∧
  length (rows sample_loaded_mixed) ≤ length (rows sample_sheet_mixed).
Proof.
  assert ((load_data sample_coerce sample_state_mixed).1 = Ret sample_loaded_mixed)
    as Hload by (vm_compute; reflexivity).
  assert (files sample_state_mixed !! xlsx = Some (Workbook sample_sheet_mixed))
    as Hfile by (vm_compute; reflexivity).
  split; [exact Hload|]. split; [exact Hfile|].
  exact (proj1 (load_data_row_count _ _ _ _ Hload Hfile)).
Defined.


Lemma load_data_numbers_before_texts_witness :
  (load_data sample_coerce sample_state_mixed).1 = Ret sample_loaded_mixed ∧
  rows sample_loaded_mixed !! 2
    = Some (sample_row (CStr "A") (CDate 4) (CStr "Luteale")) ∧
  rows sample_loaded_mixed !! 3
    = Some (sample_row CNull (CDate 2) (CStr "Luteale")) ∧
  ((∃ x, loc (sample_row CNull (CDate 2) (CStr "Luteale")) "Joueuse" = CNum x) →
   ∃ y, loc (sample_row (CStr "A") (CDate 4) (CStr "Luteale")) "Joueuse" = CNum y).
Proof.
  assert ((load_data sample_coerce sample_state_mixed).1 = Ret sample_loaded_mixed)
    as Hload by (vm_compute; reflexivity).
  assert (2 < 3) as Hlt by lia.
  assert (rows sample_loaded_mixed !! 2
          = Some (sample_row (CStr "A") (CDate 4) (CStr "Luteale")))
    as H2 by reflexivity.
  assert (rows sample_loaded_mixed !! 3
          = Some (sample_row CNull (CDate 2) (CStr "Luteale")))
    as H3 by reflexivity.
  split; [exact Hload|]. split; [exact H2|]. split; [exact H3|].
  exact (proj1 (load_data_numbers_before_texts _ _ _ 2 3 _ _ Hload Hlt H2 H3)).
Defined.

Lemma display_figures_placement_witness :
  1 ≤ 2 ∧
  ∃ els,
    display_figures_in_columns
      [sample_figure "a"; sample_figure "b"; sample_figure "c"] 2 sample_state
    = (Ret (), add_elements sample_state els) ∧
    placed 0 els
    = [(1, Some 0, sample_figure "a"); (1, Some 1, sample_figure "b");
       (2, Some 0, sample_figure "c")].
Proof.
  split; [lia|].
  destruct (display_figures_placement
              [sample_figure "a"; sample_figure "b"; sample_figure "c"] 2 sample_state)
    as (els & Hrun & Hplaced); [lia|].
  exists els. split; [exact Hrun|]. rewrite Hplaced. reflexivity.
Defined.



Lemma heatmaps_at_most_half_the_rows_witness :
  (section_2_2 ∈ [section_2_2; section_2_3; section_4_2; section_4_3]) ∧
  ∃ els,
    (section_2_2 sample_loaded sample_state).2 = add_elements sample_state els ∧
    2 * length (charts_of els) ≤ pd.len sample_loaded.
Proof.
  assert (section_2_2 ∈ [section_2_2; section_2_3; section_4_2; section_4_3])
    as Hin by (left).
  split; [exact Hin|].
  exact (heatmaps_at_most_half_the_rows sample_loaded sample_state section_2_2 Hin).
Defined.


Lemma player_rows_already_in_date_order_witness :
  (load_data sample_coerce sample_state_mixed).1 = Ret sample_loaded_mixed ∧
  Sorted date_le
    (filter (λ r, loc r "Joueuse" = CNum (Qc_of_Z 7)) (rows sample_loaded_mixed)).
Proof.
  assert ((load_data sample_coerce sample_state_mixed).1 = Ret sample_loaded_mixed)
    as Hload by (vm_compute; reflexivity).
  split; [exact Hload|].
  exact (player_rows_already_in_date_order _ _ _ (CNum (Qc_of_Z 7)) Hload).
Defined.

Lemma joueuses_in_frame_order_witness :
  (load_data sample_coerce sample_state).1 = Ret sample_loaded ∧
  pd.homogeneous (column sample_loaded "Joueuse") ∧
  ¬ (CNull ∈ column sample_loaded "Joueuse" ∧
     ∃ t, CStr t ∈ column sample_loaded "Joueuse") ∧
  joueuses sample_loaded = Ret [CStr "A"; CStr "B"].
Proof.
  assert ((load_data sample_coerce sample_state).1 = Ret sample_loaded) as Hload
    by (vm_compute; reflexivity).
  assert (pd.homogeneous (column sample_loaded "Joueuse")) as Hhom by (by_compute).
  assert (¬ (CNull ∈ column sample_loaded "Joueuse" ∧
             ∃ t, CStr t ∈ column sample_loaded "Joueuse")) as Hmix.
  { intros [Hnull _]. revert Hnull. by_compute. }
  split; [exact Hload|]. split; [exact Hhom|]. split; [exact Hmix|].
  rewrite (joueuses_in_frame_order _ _ _ Hload Hhom Hmix). vm_compute. reflexivity.
Defined.


Lemma section_1_fails_on_mixed_players_witness :
  (sample_row (CNum (Qc_of_Z 7)) (CDate 6) (CStr "Luteale")
     ∈ rows sample_loaded_mixed) ∧
  (sample_row (CStr "A") (CDate 4) (CStr "Luteale") ∈ rows sample_loaded_mixed) ∧
  ∃ e,
    section_1 sample_loaded_mixed sample_state
    = (Raise e,
       add_elements sample_state
         [Header "1. 🌸 Phases du Cycle par Joueuse"; Container]).
Proof.
  assert ("Joueuse" ∈ columns sample_loaded_mixed) as HJ by (by_compute).
  assert ("Phase_Cycle" ∈ columns sample_loaded_mixed) as HP by (by_compute).
  assert (sample_row (CNum (Qc_of_Z 7)) (CDate 6) (CStr "Luteale")
            ∈ rows sample_loaded_mixed) as H1
    by (apply (list_elem_of_lookup_2 _ 0); reflexivity).
  assert (sample_row (CStr "A") (CDate 4) (CStr "Luteale")
            ∈ rows sample_loaded_mixed) as H2
    by (apply (list_elem_of_lookup_2 _ 2); reflexivity).
  assert (loc (sample_row (CNum (Qc_of_Z 7)) (CDate 6) (CStr "Luteale")) "Joueuse"
          = CNum (Qc_of_Z 7)) as Hnum by (vm_compute; reflexivity).
  assert (loc (sample_row (CNum (Qc_of_Z 7)) (CDate 6) (CStr "Luteale"))
            "Phase_Cycle" ≠ CNull) as Hp1 by (vm_compute; discriminate).
  assert (loc (sample_row (CStr "A") (CDate 4) (CStr "Luteale")) "Joueuse"
          = CStr "A") as Hstr by (vm_compute; reflexivity).
  assert (loc (sample_row (CStr "A") (CDate 4) (CStr "Luteale"))
            "Phase_Cycle" ≠ CNull) as Hp2 by (vm_compute; discriminate).
  split; [exact H1|]. split; [exact H2|].
  exact (section_1_fails_on_mixed_players sample_loaded_mixed sample_state
           _ _ _ _ HJ HP H1 H2 Hnum Hp1 Hstr Hp2).
Defined.

